(** * kafkarecon: configuration store, connection handling and cluster
      enumeration of [kafkarecon.py], embedded as state-passing functions.

    The script keeps one process-wide [State] object [S]; its commands
    mutate [S], print to the terminal and call into the Kafka client
    library, the file system and the random number generator.  The
    embedding threads a [Machine] (session state, outside world, trace of
    prints and library calls) through a small state-and-exception monad. *)

From Stdlib Require Import ZArith String Ascii List Bool Lia.
From stdpp Require Import base option list gmap strings pretty.
From stdpp Require Import sorting.
From Stdlib Require OrderedTypeEx.

Set Warnings "-register-all".

Open Scope string_scope.
Open Scope Z_scope.

(** ** Python values and built-ins used by the script *)

(** What [json.load] can return. A JSON object becomes a [dict] with
    string keys, an array a [list]. The finite map holds the items of the
    dict; the order of the keys in the document is not recorded. *)
Inductive json : Type :=
| JNull
| JBool (b : bool)
| JInt (n : Z)
| JFloat (lexeme : string)
| JStr (s : string)
| JList (l : list json)
| JDict (d : gmap string json).

(** Exceptions. [KafkaException] is the client library's class; every
    other exception the script can meet is a built-in [Exception]
    subclass, recorded with its class name. *)
Inductive exn : Type :=
| KafkaException (msg : string)
| PyException (cls msg : string).

Inductive outcome (A : Type) : Type :=
| Return (a : A)
| Raise (e : exn).
Arguments Return {A} a.
Arguments Raise {A} e.

(** [isinstance(v, dict)] and [isinstance(v, list)]. *)
Definition isinstance_dict (v : json) : bool :=
  match v with JDict _ => true | _ => false end.

Definition isinstance_list (v : json) : bool :=
  match v with JList _ => true | _ => false end.

(** [x is None]. *)
Definition is_None {A : Type} (x : option A) : bool :=
  match x with None => true | Some _ => false end.

(** [t.startswith(s)]. *)
Fixpoint startswith (s t : string) : bool :=
  match s, t with
  | EmptyString, _ => true
  | String a s', String b t' => if Ascii.eqb a b then startswith s' t' else false
  | String _ _, EmptyString => false
  end.

(** [s in t] for two strings: [s] occurs in [t] as a contiguous run. *)
Fixpoint str_in (s t : string) : bool :=
  startswith s t ||
  match t with
  | EmptyString => false
  | String _ t' => str_in s t'
  end.

(** [k in (a, b, ...)] for a tuple of strings: equality with an element. *)
Definition tuple_in (k : string) (t : list string) : bool :=
  existsb (String.eqb k) t.

(** [s[:n]]. *)
Fixpoint str_slice_to (n : nat) (s : string) : string :=
  match n, s with
  | S n', String a s' => String a (str_slice_to n' s')
  | _, _ => EmptyString
  end.

(** [str(n)] for an [int]. *)
Definition str_int (n : Z) : string := pretty n.

(** [str(x)] for a value that is a string or [None]. *)
Definition str_opt (x : option string) : string :=
  match x with Some s => s | None => "None" end.

(** [sorted(l, key=...)]: a stable sort, here by insertion. *)
Section Sorted.
Context {A K : Type} (key : A -> K) (leb : K -> K -> bool).

Fixpoint insert_sorted (x : A) (l : list A) : list A :=
  match l with
  | [] => [x]
  | y :: l' => if leb (key y) (key x) then y :: insert_sorted x l' else x :: l
  end.

Definition sorted (l : list A) : list A :=
  fold_left (fun acc x => insert_sorted x acc) l [].
End Sorted.

(** ** The client library's objects ([confluent_kafka]) *)

(** Client objects are opaque to the script; they are told apart by
    object identity. *)
Inductive AdminClient : Type := AdminClientObj (oid : nat).
Inductive Consumer : Type := ConsumerObj (oid : nat).

Record BrokerMetadata : Type := {
  id : Z;
  host : string;
  port : Z
}.

(** [brokers] is a [dict] from broker id to [BrokerMetadata]; the script
    iterates over it, so its items are kept in the dict's own order. *)
Record ClusterMetadata : Type := {
  cluster_id : option string;
  controller_id : Z;
  brokers : list (Z * BrokerMetadata);
  orig_broker_id : Z;
  orig_broker_name : option string
}.

Inductive ResourceType : Type := UNKNOWN | ANY | TOPIC | GROUP | BROKER.

Record ConfigResource : Type := {
  restype : ResourceType;
  resname : string
}.

(** [source] is a [ConfigSource] enumeration member, kept as its code. *)
Record ConfigEntry : Type := {
  name : string;
  value : option string;
  source : Z;
  is_read_only : bool;
  is_sensitive : bool
}.

(** [dict.values()] and [key in dict] for [brokers]. *)
Definition values {K V : Type} (d : list (K * V)) : list V := map snd d.

Definition in_brokers (i : Z) (d : list (Z * BrokerMetadata)) : bool :=
  existsb (Z.eqb i) (map fst d).

(** ** Session state *)

Module State.
(** The dataclass [State]; [args] holds the parsed [--config] option. *)
Record t : Type := {
  args : option string;
  config : gmap string json;
  admin : option AdminClient;
  consumer : option Consumer;
  broker : json
}.

(** Assignments to one field. *)
Definition with_config (c : gmap string json) (s : t) : t :=
  {| args := args s; config := c; admin := admin s; consumer := consumer s;
     broker := broker s |}.

Definition with_admin (a : option AdminClient) (s : t) : t :=
  {| args := args s; config := config s; admin := a; consumer := consumer s;
     broker := broker s |}.

Definition with_consumer (c : option Consumer) (s : t) : t :=
  {| args := args s; config := config s; admin := admin s; consumer := c;
     broker := broker s |}.

Definition with_broker (b : json) (s : t) : t :=
  {| args := args s; config := config s; admin := admin s; consumer := consumer s;
     broker := b |}.

(** [State()] as created at import time. *)
Definition init : t :=
  {| args := None; config := ∅; admin := None; consumer := None;
     broker := JStr "not connected" |}.
End State.

(** ** Terminal output and calls leaving the script *)

(** A cell handed to [tprint], before [str()] is applied to it. *)
Inductive cell : Type :=
| CStr (s : string)
| CInt (n : Z)
| CVal (v : json).

Inductive call : Type :=
| CallJsonLoad (fpath : string)
| CallUuid4
| CallRandomChoice (seq : list json)
| CallAdminClient (conf : gmap string json)
| CallConsumer (conf : gmap string json)
| CallAdminListTopics (a : AdminClient) (timeout : Z)
| CallConsumerListTopics (c : Consumer) (timeout : Z)
| CallDescribeConfigs (a : AdminClient) (res : ConfigResource)
| CallAdminClose (a : AdminClient)
| CallConsumerClose (c : Consumer).

(** One entry of the trace: a [print] line, a [tprint] call with the rows
    it was given (header first), a [tprint] call whose rows are the items
    of a dict, or a call leaving the script. [tprint] only lays its rows
    out in columns; the trace records the rows.

    [TprintItems header d] stands for [tprint(header, *d.items())]. Python
    hands the items over in the dict's insertion order (for a loaded
    document, the key order of the file). A finite map holds the items of
    a dict and not that order, so the event records the dict itself, as
    the [Call] events do for the dicts given to the client constructors,
    and says nothing about the order of the rows. *)
Inductive event : Type :=
| Print (line : string)
| Tprint (rows : list (list cell))
| TprintItems (header : list cell) (items : gmap string json)
| Call (c : call).

(** The world outside the script: what each outside call answers, as a
    function of the world's state. *)
Record Env (World : Type) : Type := {
(* [with open(fpath) as f: json.load(f)] *)
json_load : string -> World -> outcome json * World;
(* [uuid4().hex] *)
uuid4_hex : World -> string * World;
(* the index drawn by [random.choice] for a sequence of length [n] *)
randbelow : nat -> World -> nat * World;
(* [AdminClient(conf)], [Consumer(conf)] *)
AdminClient_init : gmap string json -> World -> outcome AdminClient * World;
Consumer_init : gmap string json -> World -> outcome Consumer * World;
(* [admin.list_topics(timeout=t)], [consumer.list_topics(timeout=t)] *)
admin_list_topics : AdminClient -> Z -> World -> outcome ClusterMetadata * World;
consumer_list_topics : Consumer -> Z -> World -> outcome ClusterMetadata * World;
(* [admin.describe_configs([res])[res].result()] *)
describe_configs : AdminClient -> ConfigResource -> World ->
                   outcome (gmap string ConfigEntry) * World;
(* [admin.close()], [consumer.close()] *)
admin_close : AdminClient -> World -> outcome unit * World;
consumer_close : Consumer -> World -> outcome unit * World
}.
Arguments json_load {World}.
Arguments uuid4_hex {World}.
Arguments randbelow {World}.
Arguments AdminClient_init {World}.
Arguments Consumer_init {World}.
Arguments admin_list_topics {World}.
Arguments consumer_list_topics {World}.
Arguments describe_configs {World}.
Arguments admin_close {World}.
Arguments consumer_close {World}.

Record Machine (World : Type) : Type := {
  sess : State.t;
  world : World;
  trace : list event
}.
Arguments sess {World}.
Arguments world {World}.
Arguments trace {World}.
Arguments Build_Machine {World}.

(** ** The monad: state passing with exceptions *)

Section Monad.
Context {World : Type}.

Definition M (A : Type) : Type := Machine World -> outcome A * Machine World.

Definition ret {A} (a : A) : M A := fun m => (Return a, m).

Definition bind {A B} (p : M A) (k : A -> M B) : M B :=
  fun m => match p m with
           | (Return a, m') => k a m'
           | (Raise e, m') => (Raise e, m')
           end.

Definition raise {A} (e : exn) : M A := fun m => (Raise e, m).

(** [try: body  except KafkaException as e: handler(str(e))] *)
Definition try_except_KafkaException {A} (body : M A) (handler : string -> M A) : M A :=
  fun m => match body m with
           | (Raise (KafkaException msg), m') => handler msg m'
           | r => r
           end.

(** [try: body  except Exception: handler]; every [exn] is an
    [Exception]. *)
Definition try_except_Exception {A} (body : M A) (handler : M A) : M A :=
  fun m => match body m with
           | (Raise _, m') => handler m'
           | r => r
           end.

Definition emit (e : event) : M unit :=
  fun m => (Return tt, {| sess := sess m; world := world m; trace := trace m ++ [e] |}).

Definition print (line : string) : M unit := emit (Print line).

Definition tprint (rows : list (list cell)) : M unit := emit (Tprint rows).

(** [tprint(header, *d.items())] *)
Definition tprint_items (header : list cell) (d : gmap string json) : M unit :=
  emit (TprintItems header d).

(** An outside call: logged, then answered by the world. *)
Definition outside {A} (c : call) (f : World -> outcome A * World) : M A :=
  fun m => let '(r, w) := f (world m) in
           (r, {| sess := sess m; world := w; trace := trace m ++ [Call c] |}).

Definition get_S : M State.t := fun m => (Return (sess m), m).

Definition put_S (s : State.t) : M unit :=
  fun m => (Return tt, {| sess := s; world := world m; trace := trace m |}).

Fixpoint for_each {A} (l : list A) (body : A -> M unit) : M unit :=
  match l with
  | [] => ret tt
  | x :: l' => bind (body x) (fun _ => for_each l' body)
  end.
End Monad.

Declare Scope py_scope.
Delimit Scope py_scope with py.
Notation "'let*' x := p 'in' k" := (bind p (fun x => k))
  (at level 10, x name, p at level 100, k at level 200) : py_scope.
Notation "p ;; k" := (bind p (fun _ => k))
  (at level 100, k at level 200, right associativity) : py_scope.
Open Scope py_scope.

(** ** The script *)

Section Script.
Context {World : Type} (env : Env World).

Local Abbreviation M := (@M World).

(** Writes to the fields of [S] and to the mapping [S.config]. The
    [config] parameter of [exec_load] and [exec_connect] is always the
    object [S.config] (see [run_command]): an update of [config] in
    place is an update of [S.config]. *)
Definition set_config (c : gmap string json) : M unit :=
  let* s := get_S in put_S (State.with_config c s).

Definition set_admin (a : option AdminClient) : M unit :=
  let* s := get_S in put_S (State.with_admin a s).

Definition set_consumer (c : option Consumer) : M unit :=
  let* s := get_S in put_S (State.with_consumer c s).

Definition set_broker (b : json) : M unit :=
  let* s := get_S in put_S (State.with_broker b s).

Definition get_config : M (gmap string json) :=
  let* s := get_S in ret (State.config s).

(** *** Configuration management *)

Definition print_config (config : gmap string json) : M unit :=
  if decide (config = ∅) then print " (-) No configuration"
  else tprint_items [CStr "Key"; CStr "Value"] config.

Definition exec_load (fpath : string) : M unit :=
  let* loaded :=
    try_except_Exception
      (let* new := outside (CallJsonLoad fpath) (json_load env fpath) in
       ret (Some new))
      (print (" (-) Could not load file: " +:+ fpath) ;; ret None) in
  match loaded with
  | None => ret tt
  | Some (JDict new) =>
      let* config := get_config in
      set_config (new ∪ config) ;;
      print " (+) Loaded configuration from file:" ;;
      print "" ;;
      print_config new
  | Some _ => print " (-) Configuration must be an object"
  end.

(** *** Connection handling *)

(** [random.choice(seq)]: [IndexError] on an empty sequence, else the
    element at a drawn index below [len(seq)]. *)
Definition random_choice (seq : list json) : M json :=
  match seq with
  | [] => raise (PyException "IndexError" "Cannot choose from an empty sequence")
  | x :: _ =>
      let* i := outside (CallRandomChoice seq)
                  (fun w => let '(i, w') := randbelow env (length seq) w in
                            (Return i, w')) in
      ret (nth (i mod length seq)%nat seq x)
  end.

Definition admin_keys : list string :=
  ["security.protocol"; "ssl.ca.location"; "ssl.certificate.location";
   "ssl.key.location"].

Definition admin_conf (config : gmap string json) (bootstrap_server : json)
  : gmap string json :=
  <["bootstrap.servers" := bootstrap_server]>
    (filter (fun kv => tuple_in (fst kv) admin_keys = true) config).

Definition consumer_conf (config : gmap string json) (bootstrap_server : json)
  : gmap string json :=
  <["enable.partition.eof" := JBool true]>
    (<["bootstrap.servers" := bootstrap_server]> config).

Definition resolve_bootstrap (v : json) : M json :=
  match v with
  | JList seq => random_choice seq
  | _ => ret v
  end.

(** "Preprocess configuration": the group id. *)
Definition default_group_id : M unit :=
  let* config := get_config in
  if decide (config !! "group.id" = None) then
    let* gid := outside CallUuid4
                  (fun w => let '(g, w') := uuid4_hex env w in (Return g, w')) in
    set_config (<["group.id" := JStr gid]> config) ;;
    print (" (+) Group ID not configured, using: " +:+ gid) ;;
    print ""
  else ret tt.

(** "Instantiate admin client". *)
Definition instantiate_admin (config : gmap string json) (bootstrap_server : json)
  : M unit :=
  try_except_KafkaException
    (let* a := outside (CallAdminClient (admin_conf config bootstrap_server))
                 (AdminClient_init env (admin_conf config bootstrap_server)) in
     set_admin (Some a) ;;
     set_broker bootstrap_server ;;
     print " (+) Admin client connected")
    (fun e => print (" (-) Admin client connection failed: " +:+ e)).

(** "Instantiate consumer". *)
Definition instantiate_consumer (config : gmap string json) (bootstrap_server : json)
  : M unit :=
  try_except_KafkaException
    (let* c := outside (CallConsumer (consumer_conf config bootstrap_server))
                 (Consumer_init env (consumer_conf config bootstrap_server)) in
     set_consumer (Some c) ;;
     set_broker bootstrap_server ;;
     print " (+) Consumer connected")
    (fun e => print (" (-) Consumer connection failed: " +:+ e)).

(** [exec_connect] from the bootstrap check on. *)
Definition connect_clients : M unit :=
  let* config := get_config in
  match config !! "bootstrap.servers" with
  | None => print " (-) Bootstrap server not configured"
  | Some v =>
      let* bootstrap_server := resolve_bootstrap v in
      instantiate_admin config bootstrap_server ;;
      print "" ;;
      instantiate_consumer config bootstrap_server
  end.

Definition exec_connect : M unit :=
  default_group_id ;;
  connect_clients.

Definition exec_disconnect (admin : option AdminClient) (consumer : option Consumer)
  : M unit :=
  (if is_None admin && is_None consumer then print " (-) Not connected" else ret tt) ;;
  (match admin with
   | Some a =>
       outside (CallAdminClose a) (admin_close env a) ;;
       print " (+) Admin disconnected"
   | None => ret tt
   end) ;;
  match consumer with
  | Some c =>
      outside (CallConsumerClose c) (consumer_close env c) ;;
      print " (+) Consumer disconnected"
  | None => ret tt
  end.

(** *** General enumeration and overview *)

Definition broker_row (b : BrokerMetadata) : list cell :=
  [CInt (id b); CStr (host b); CInt (port b)].

(** The row of one configuration entry. *)
Definition entry_row (e : ConfigEntry) : list cell :=
  [CStr (str_slice_to 40 (name e));
   CStr (match value e with Some v => str_slice_to 20 v | None => "-" end);
   CInt (source e);
   CStr (if is_read_only e then "Yes" else "");
   CStr (if is_sensitive e then "Yes" else "")].

(** [dict(sorted(entries.items()))]: the items in ascending key order
    (keys of a dict are distinct, so the entries are never compared). *)
Definition sorted_items (entries : gmap string ConfigEntry)
  : list (string * ConfigEntry) :=
  sorted fst String.leb (map_to_list entries).

(** The condition of the generator: [k in ("ssl.client.auth")]. The
    parentheses hold a string, not a tuple, so [in] is the string
    containment test. *)
Definition shown (k : string) : bool := str_in k "ssl.client.auth".

Definition entry_rows (entries : gmap string ConfigEntry) : list (list cell) :=
  map (fun ke => entry_row (snd ke))
      (List.filter (fun ke => shown (fst ke)) (sorted_items entries)).

Definition config_header : list cell :=
  [CStr "Name"; CStr "Value"; CStr "Source"; CStr "Read Only"; CStr "Sensitive"].

(** The body of the loop over [meta.brokers.values()]. *)
Definition describe_broker (a : AdminClient) (broker : BrokerMetadata) : M unit :=
  let res := {| restype := BROKER; resname := str_int (id broker) |} in
  try_except_KafkaException
    (let* entries := outside (CallDescribeConfigs a res) (describe_configs env a res) in
     tprint (config_header :: entry_rows entries))
    (fun _ => print (" (-) Could not describe broker " +:+ str_int (id broker))).

(** The part of [exec_cluster] under "Broker metadata". *)
Definition report_brokers (meta : ClusterMetadata) : M unit :=
  print (" (+) Metadata origin broker name: " +:+ str_opt (orig_broker_name meta)) ;;
  print "" ;;
  tprint ([CStr "ID"; CStr "Host"; CStr "Port"]
            :: map broker_row (sorted id Z.leb (values (brokers meta)))) ;;
  print "" ;;
  (if in_brokers (orig_broker_id meta) (brokers meta)
   then print (" (+) Metadata origin broker ID: " +:+ str_int (orig_broker_id meta))
   else print (" (-) Invalid metadata origin broker ID: "
                 +:+ str_int (orig_broker_id meta))) ;;
  print "" ;;
  (if in_brokers (controller_id meta) (brokers meta)
   then print (" (+) Controller broker ID: " +:+ str_int (controller_id meta))
   else print (" (-) Invalid controller broker ID: " +:+ str_int (controller_id meta))) ;;
  print "".

(** The part of [exec_cluster] under "Broker resource configs". *)
Definition report_configs (admin : option AdminClient) (meta : option ClusterMetadata)
  : M unit :=
  match admin, meta with
  | Some a, Some meta => for_each (values (brokers meta)) (describe_broker a)
  | _, _ => ret tt
  end.

Definition fetch_meta (admin : option AdminClient) (consumer : option Consumer)
  : M (option ClusterMetadata) :=
  try_except_KafkaException
    (match admin, consumer with
     | Some a, _ =>
         let* meta := outside (CallAdminListTopics a 15) (admin_list_topics env a 15) in
         ret (Some meta)
     | None, Some c =>
         let* meta := outside (CallConsumerListTopics c 15)
                        (consumer_list_topics env c 15) in
         ret (Some meta)
     | None, None => ret None
     end)
    (fun e => print (" (-) Could not query metadata: " +:+ e) ;; print "" ;; ret None).

Definition exec_cluster (admin : option AdminClient) (consumer : option Consumer)
  : M unit :=
  if is_None admin && is_None consumer then print " (-) Not connected"
  else
    (* [cluster = None]: the [describe_cluster] query is commented out *)
    let* meta := fetch_meta admin consumer in
    (match meta with
     | Some meta =>
         print (" (+) Cluster ID: " +:+ str_opt (cluster_id meta)) ;; print ""
     | None => ret tt
     end) ;;
    (match meta with
     | Some meta => report_brokers meta
     | None => ret tt
     end) ;;
    report_configs admin meta.

(** *** One turn of the command loop of [main], from the split command
    line on. The result tells whether the loop goes on. *)
Definition help_rows : list (list cell) :=
  map (map CStr)
    [["Command"; "Description"];
     ["config"; "show current configuration"];
     ["connect"; "create consumer and admin client"];
     ["disconnect"; "close consumer and admin client"];
     ["exit"; "exit the script"];
     ["help"; "show this help message"];
     ["load <file>"; "load kafka config from json file"]].

Definition run_command (command : list string) : M bool :=
  match command with
  | [] => ret true
  | c0 :: rest =>
      print "" ;;
      if String.eqb c0 "exit" then ret false
      else if tuple_in c0 ["help"; "?"] then tprint help_rows ;; ret true
      else if String.eqb c0 "config" then
        let* s := get_S in print_config (State.config s) ;; ret true
      else if String.eqb c0 "load" then
        match rest with
        | [fpath] => exec_load fpath ;; ret true
        | _ => print " (-) usage: load <file>" ;; ret true
        end
      else if String.eqb c0 "connect" then
        let* s := get_S in
        if decide (State.config s = ∅)
        then print " (-) Configuration required" ;; ret true
        else exec_connect ;; ret true
      else if String.eqb c0 "disconnect" then
        let* s := get_S in
        exec_disconnect (State.admin s) (State.consumer s) ;; ret true
      else if String.eqb c0 "cluster" then
        let* s := get_S in
        exec_cluster (State.admin s) (State.consumer s) ;; ret true
      else print (" (-) Command not found: " +:+ c0) ;; ret true
  end.
End Script.

(** [main] before the command loop: the initial configuration. *)
Definition main_startup {World : Type} (env : Env World) : M unit :=
  print "" ;;
  let* s := get_S in
  match State.args s with
  | Some fpath =>
      if String.eqb fpath "" then print " (+) Started without initial configuration"
      else exec_load env fpath
  | None => print " (+) Started without initial configuration"
  end.

(** ** Observations on a run *)

(** What a run appends to the trace. *)
Definition events_of {World A : Type} (p : @M World A) (m : Machine World) : list event :=
  drop (length (trace m)) (trace (snd (p m))).

(** A client construction or a request to the cluster. *)
Definition is_client_call (e : event) : bool :=
  match e with
  | Call (CallAdminClient _) | Call (CallConsumer _)
  | Call (CallAdminListTopics _ _) | Call (CallConsumerListTopics _ _)
  | Call (CallDescribeConfigs _ _)
  | Call (CallAdminClose _) | Call (CallConsumerClose _) => true
  | _ => false
  end.

(** A run leaves an aspect [f] of the session as it was. *)
Definition keeps {World X A : Type} (f : State.t -> X) (p : @M World A) : Prop :=
  forall m, f (sess (snd (p m))) = f (sess m).

(** A run only appends to the trace, and only events that satisfy [P]. *)
Definition emits_only {World A : Type} (P : event -> Prop) (p : @M World A) : Prop :=
  forall m, exists es : list event,
    trace (snd (p m)) = (trace m ++ es)%list /\ Forall P es.

(** A session that holds no handle and shows the initial label. *)
Definition never_connected (s : State.t) : Prop :=
  State.admin s = None /\ State.consumer s = None /\
  State.broker s = JStr "not connected".


(** Both constructions fail with a [KafkaException]. *)
Definition no_client_constructed {World : Type} (env : Env World)
           (config : gmap string json) (b : json) (w : World) : Prop :=
  exists msg1 w1 msg2 w2,
    AdminClient_init env (admin_conf config b) w = (Raise (KafkaException msg1), w1) /\
    Consumer_init env (consumer_conf config b) w1 = (Raise (KafkaException msg2), w2).

(** The addresses a configured bootstrap value [v] stands for: the
    elements of the list when [v] is a list, [v] itself otherwise. *)
Definition candidate (v b : json) : Prop :=
  match v with
  | JList seq => In b seq
  | _ => b = v
  end.

(** The event is not the construction of an admin client. *)
Definition not_admin_construction (e : event) : Prop :=
  match e with
  | Call (CallAdminClient _) => False
  | _ => True
  end.

(** The broker names of the configuration requests in a trace, in the
    order in which they were made. *)
Definition requested_brokers (es : list event) : list string :=
  omap (fun e => match e with
                 | Call (CallDescribeConfigs _ res) => Some (resname res)
                 | _ => None
                 end) es.

(** A configuration request answers or fails with a [KafkaException]. *)
Definition describe_answers_or_fails {World : Type} (env : Env World) : Prop :=
  forall a res w,
    match fst (describe_configs env a res w) with
    | Raise (PyException _ _) => False
    | _ => True
    end.

(** A [json.load] result that [exec_load] turns down: the read or the
    parse raised, or the document is not an object. *)
Definition load_rejected (r : outcome json) : Prop :=
  match r with
  | Raise _ => True
  | Return v => isinstance_dict v = false
  end.

(** ** A concrete world for examples

    The world is a counter of the random draws made so far. Files, the
    cluster and the outcome of the two client constructions are fixed by
    the parameters. *)
Module Demo.
Definition files (fpath : string) : outcome json :=
  if String.eqb fpath "first.json" then
    Return (JDict (<["bootstrap.servers" := JStr "localhost:9092"]>
                     (<["security.protocol" := JStr "SSL"]> ∅)))
  else if String.eqb fpath "second.json" then
    Return (JDict {[ "security.protocol" := JStr "PLAINTEXT" ]})
  else if String.eqb fpath "array.json" then
    Return (JList [JStr "localhost:9092"])
  else Raise (PyException "FileNotFoundError" "No such file or directory").

Definition uuids : list string :=
  ["0f8fad5bd9cb469fa16570867728950e"; "7c9e6679742540de944be07fc1f90ae7"].

Definition broker1 : BrokerMetadata := {| id := 1; host := "kafka-1"; port := 9092 |}.
Definition broker2 : BrokerMetadata := {| id := 2; host := "kafka-2"; port := 9092 |}.
Definition broker3 : BrokerMetadata := {| id := 3; host := "kafka-3"; port := 9092 |}.

(** A snapshot whose broker dict lists 1, 3, 2 and whose controller is
    not a member. *)
Definition meta132 : ClusterMetadata :=
  {| cluster_id := Some "lkc-demo"; controller_id := 7;
     brokers := [(1, broker1); (3, broker3); (2, broker2)];
     orig_broker_id := 1; orig_broker_name := Some "kafka-1:9092/1" |}.

Definition client_auth : ConfigEntry :=
  {| name := "ssl.client.auth"; value := Some "required"; source := 4;
     is_read_only := true; is_sensitive := false |}.

Definition ssl_entry : ConfigEntry :=
  {| name := "ssl"; value := None; source := 5;
     is_read_only := false; is_sensitive := false |}.

Definition log_dirs : ConfigEntry :=
  {| name := "log.dirs"; value := Some "/var/lib/kafka"; source := 4;
     is_read_only := true; is_sensitive := false |}.

Definition entries : gmap string ConfigEntry :=
  <["ssl.client.auth" := client_auth]> (<["log.dirs" := log_dirs]> ∅).

(** A fetch result that also holds an entry named "ssl". *)
Definition entries_ssl : gmap string ConfigEntry :=
  <["ssl" := ssl_entry]> entries.

Definition construct {A : Type} (ok : bool) (obj : A) (w : nat) : outcome A * nat :=
  if ok then (Return obj, w)
  else (Raise (KafkaException "Failed to create client"), w).

(** [admin_ok], [consumer_ok]: whether the constructions succeed;
    [failing]: the broker whose configuration request fails;
    [fetched]: what a configuration request returns otherwise. *)
Definition env (admin_ok consumer_ok : bool) (failing : string)
           (fetched : gmap string ConfigEntry) : Env nat :=
  {| json_load := fun fpath w => (files fpath, w);
     uuid4_hex := fun w => (nth w uuids "", S w);
     randbelow := fun n w => (w, S w);
     AdminClient_init := fun _ => construct admin_ok (AdminClientObj 1);
     Consumer_init := fun _ => construct consumer_ok (ConsumerObj 2);
     admin_list_topics := fun _ _ w => (Return meta132, w);
     consumer_list_topics := fun _ _ w => (Return meta132, w);
     describe_configs := fun _ res w =>
       if String.eqb (resname res) failing
       then (Raise (KafkaException "Request timed out"), w)
       else (Return fetched, w);
     admin_close := fun _ w => (Return tt, w);
     consumer_close := fun _ w => (Return tt, w) |}.

Definition start (s : State.t) : Machine nat :=
  {| sess := s; world := 0%nat; trace := [] |}.

Definition with_config (c : gmap string json) : State.t :=
  State.with_config c State.init.

(** The usual world: both constructions succeed, broker 2 does not answer
    configuration requests. *)
Definition env_up : Env nat := env true true "2" entries.

(** A configuration without group id and without bootstrap address. *)
Definition config_no_bootstrap : gmap string json :=
  {[ "security.protocol" := JStr "SSL" ]}.

(** A configuration with a bootstrap address only. *)
Definition config_bootstrap : gmap string json :=
  {[ "bootstrap.servers" := JStr "localhost:9092" ]}.

(** A configuration whose list of bootstrap addresses is empty. *)
Definition config_empty_list : gmap string json :=
  <["bootstrap.servers" := JList []]> {[ "group.id" := JStr "recon" ]}.

Definition env_down : Env nat := env false false "2" entries.

(** A world whose brokers also report an entry named "ssl". *)
Definition env_ssl : Env nat := env true true "none" entries_ssl.

Definition admin1 : AdminClient := AdminClientObj 1.

Definition connected : State.t :=
  {| State.args := None;
     State.config := <["bootstrap.servers" := JStr "localhost:9092"]> ∅;
     State.admin := Some (AdminClientObj 1);
     State.consumer := Some (ConsumerObj 2);
     State.broker := JStr "localhost:9092" |}.

Definition m_connected : Machine nat := start connected.
Definition m_fresh : Machine nat := start State.init.
Definition m_no_bootstrap : Machine nat := start (with_config config_no_bootstrap).
Definition m_empty_list : Machine nat := start (with_config config_empty_list).

(** [m_connected] after the metadata request. *)
Definition m_listed : Machine nat :=
  {| sess := connected; world := 0%nat;
     trace := [Call (CallAdminListTopics admin1 15)] |}.

End Demo.

(** ** More concrete worlds and tables for examples *)
Module Samples.
(** A world where the admin construction raises a [TypeError]. *)
Definition env_type_error : Env nat :=
  {| json_load := json_load Demo.env_up;
     uuid4_hex := uuid4_hex Demo.env_up;
     randbelow := randbelow Demo.env_up;
     AdminClient_init := fun _ w =>
       (Raise (PyException "TypeError" "expected configuration dict"), w);
     Consumer_init := Consumer_init Demo.env_up;
     admin_list_topics := admin_list_topics Demo.env_up;
     consumer_list_topics := consumer_list_topics Demo.env_up;
     describe_configs := describe_configs Demo.env_up;
     admin_close := admin_close Demo.env_up;
     consumer_close := consumer_close Demo.env_up |}.

(** A world where the consumer construction fails and the admin
    construction succeeds. *)
Definition env_consumer_down : Env nat := Demo.env true false "2" Demo.entries.

(** A world where the metadata requests time out. *)
Definition env_no_metadata : Env nat :=
  {| json_load := json_load Demo.env_up;
     uuid4_hex := uuid4_hex Demo.env_up;
     randbelow := randbelow Demo.env_up;
     AdminClient_init := AdminClient_init Demo.env_up;
     Consumer_init := Consumer_init Demo.env_up;
     admin_list_topics := fun _ _ w => (Raise (KafkaException "timed out"), w);
     consumer_list_topics := fun _ _ w => (Raise (KafkaException "timed out"), w);
     describe_configs := describe_configs Demo.env_up;
     admin_close := admin_close Demo.env_up;
     consumer_close := consumer_close Demo.env_up |}.

(** A configuration with two candidate bootstrap addresses. *)
Definition config_two_servers : gmap string json :=
  <["bootstrap.servers" := JList [JStr "kafka-1:9092"; JStr "kafka-2:9092"]]>
    (<["group.id" := JStr "recon"]>
       (<["enable.partition.eof" := JBool false]>
          (<["ssl.ca.location" := JStr "/etc/ca.pem"]> ∅))).

Definition m_two_servers : Machine nat := Demo.start (Demo.with_config config_two_servers).

(** A configuration with a group id and one bootstrap address. *)
Definition config_ready : gmap string json :=
  <["group.id" := JStr "recon"]> Demo.config_bootstrap.

Definition m_ready : Machine nat := Demo.start (Demo.with_config config_ready).

(** The document of "first.json", and its items in the key order of a
    file that names the protocol first. *)
Definition first_document : gmap string json :=
  <["bootstrap.servers" := JStr "localhost:9092"]>
    (<["security.protocol" := JStr "SSL"]> ∅).

Definition first_items : list (string * json) :=
  [("security.protocol", JStr "SSL"); ("bootstrap.servers", JStr "localhost:9092")].

(** [str()] of the cells of the tables below. *)
Definition str_cell (c : cell) : string :=
  match c with
  | CStr s => s
  | CInt n => str_int n
  | CVal (JStr s) => s
  | CVal _ => ""
  end.

Definition broker_table : list (list cell) :=
  [CStr "ID"; CStr "Host"; CStr "Port"]
    :: map broker_row [Demo.broker1; Demo.broker2; Demo.broker3].

Definition config_table : list (list cell) :=
  [[CStr "Key"; CStr "Value"];
   [CStr "bootstrap.servers"; CVal (JList [JStr "kafka-1:9092"; JStr "kafka-2:9092"])];
   [CStr "group.id"; CVal (JStr "recon")]].

(** A table whose second row has one cell less than the header. *)
Definition ragged_table : list (list cell) :=
  [[CStr "Key"; CStr "Value"]; [CStr "group.id"]].

Definition long_entry : ConfigEntry :=
  {| name := "listener.name.internal.ssl.client.auth.and.more";
     value := Some "required-by-the-internal-listener"; source := 4;
     is_read_only := false; is_sensitive := true |}.
End Samples.

(** ** [tprint]: the layout of a table

    [tprint] either raises before it prints anything or prints all its
    lines; [tprint_lines] gives the exception or the lines. Rows are lists
    or tuples of cells, as at every call in the script (for these the test
    [isinstance(rows[0], str)] is false); [str] is the [str()] of the
    objects in the cells. *)

(** A cell: a list, shown one item per line, or any other object. *)
Inductive tcell (V : Type) : Type :=
| One (v : V)
| Many (items : list V).
Arguments One {V} v.
Arguments Many {V} items.

(** [max(...)] over natural numbers; the message of the [ValueError] is
    that of CPython 3.10 and 3.11. *)
Definition py_max (l : list nat) : outcome nat :=
  match l with
  | [] => Raise (PyException "ValueError" "max() arg is an empty sequence")
  | x :: l' => Return (fold_left Nat.max l' x)
  end.

(** [l[i]] for a list. *)
Definition py_index {A : Type} (l : list A) (i : nat) : outcome A :=
  match nth_error l i with
  | Some x => Return x
  | None => Raise (PyException "IndexError" "list index out of range")
  end.

(** [c * n] for a one-character string [c]. *)
Fixpoint str_times (c : ascii) (n : nat) : string :=
  match n with
  | O => EmptyString
  | S n' => String c (str_times c n')
  end.

(** [s.ljust(width)]. *)
Definition ljust (s : string) (width : nat) : string :=
  s +:+ str_times " "%char (width - String.length s).

(** A comprehension whose element expression can raise. *)
Fixpoint collect {A B : Type} (f : A -> outcome B) (l : list A) : outcome (list B) :=
  match l with
  | [] => Return []
  | x :: l' =>
      match f x with
      | Raise e => Raise e
      | Return y =>
          match collect f l' with
          | Raise e => Raise e
          | Return ys => Return (y :: ys)
          end
      end
  end.

(** The rows [tprint] receives from [*d.items()] when the items come in
    the order [items]: each item is a pair, which [tprint] reads as a row
    of two cells. *)
Definition item_rows (items : list (string * json)) : list (list cell) :=
  map (fun kv => [CStr (fst kv); CVal (snd kv)]) items.

(** The items of [config] as rows, in the order in which the finite map
    lists them. This is one of the orders the rows can have; the order in
    which the script prints them is the dict's insertion order, which is
    some permutation of this one. *)
Definition config_rows (config : gmap string json) : list (list cell) :=
  item_rows (map_to_list config).

Section Tprint.
Context {V : Type} (str : V -> string).

(** [cell if isinstance(cell, list) else [cell]], with [str] applied to the
    items (the padding string " ..." added below is its own [str]). *)
Definition column (c : tcell V) : list string :=
  match c with
  | One v => [str v]
  | Many items => map str items
  end.

(** [col + [" ..."] * (longest - len(col))]. *)
Definition pad (longest : nat) (col : list string) : list string :=
  col ++ repeat " ..." (longest - length col).

(** The body of the loop over [rows]: the lines one row turns into. *)
Definition expand_row (row : list (tcell V)) : outcome (list (list string)) :=
  match py_max (map (fun c => length (column c)) row) with
  | Raise e => Raise e
  | Return longest =>
      let newcols := map (fun c => pad longest (column c)) row in
      Return (map (fun i => map (fun col => nth i col "") newcols) (seq 0 longest))
  end.

Definition expand_rows (rows : list (list (tcell V))) : outcome (list (list string)) :=
  match collect expand_row rows with
  | Raise e => Raise e
  | Return groups => Return (concat groups)
  end.

(** [max(len(row[i]) for row in rows)]. *)
Definition width (rows : list (list string)) (i : nat) : outcome nat :=
  match collect (fun row => match py_index row i with
                            | Raise e => Raise e
                            | Return c => Return (String.length c)
                            end) rows with
  | Raise e => Raise e
  | Return lens => py_max lens
  end.

(** One printed line. *)
Definition format_row (widths : list nat) (row : list string) : string :=
  "   " +:+ String.concat "  " (zip_with ljust row widths).

Definition tprint_lines (rows : list (list (tcell V))) : outcome (list string) :=
  match rows with
  | [] => Raise (PyException "IndexError" "tuple index out of range")
  | _ :: _ =>
      match expand_rows rows with
      | Raise e => Raise e
      | Return [] => Raise (PyException "IndexError" "list index out of range")
      | Return (header :: body) =>
          match collect (width (header :: body)) (seq 0 (length header)) with
          | Raise e => Raise e
          | Return widths =>
              Return (map (format_row widths)
                          (header
                             :: map (fun h => str_times "-"%char (String.length h)) header
                             :: body))
          end
      end
  end.

(** The number of lines a row turns into. *)
Definition height (row : list (tcell V)) : nat :=
  fold_right Nat.max 0%nat (map (fun c => length (column c)) row).
End Tprint.

(** The length of [sep.join(l)], from the lengths of [sep] and of the
    strings of [l]. *)
Fixpoint joined_length (sep : nat) (lens : list nat) : nat :=
  match lens with
  | [] => 0
  | [x] => x
  | x :: lens' => x + sep + joined_length sep lens'
  end.

(** The cells the script hands to [tprint]: a configuration value that is
    a list is a list cell. *)
Definition layout_cell (c : cell) : tcell cell :=
  match c with
  | CVal (JList l) => Many (map CVal l)
  | _ => One c
  end.

Definition layout (rows : list (list cell)) : list (list (tcell cell)) :=
  map (map layout_cell) rows.

(** What an event says about the configurations handed to the client
    constructors: they are the admin and the consumer configuration made
    from [config] and the address [b]. *)
Definition client_conf_is (config : gmap string json) (b : json) (e : event) : Prop :=
  match e with
  | Call (CallAdminClient conf) => conf = admin_conf config b
  | Call (CallConsumer conf) => conf = consumer_conf config b
  | _ => True
  end.

(** The calls [exec_cluster] may make for the handles it is given: the
    metadata request to the admin client, or to the consumer when there is
    no admin client, with the timeout of 15; configuration requests for
    broker resources to the admin client. *)
Definition cluster_call_ok (admin : option AdminClient) (consumer : option Consumer)
           (e : event) : Prop :=
  match e with
  | Call (CallAdminListTopics a t) => admin = Some a /\ t = 15
  | Call (CallConsumerListTopics c t) => admin = None /\ consumer = Some c /\ t = 15
  | Call (CallDescribeConfigs a res) => admin = Some a /\ restype res = BROKER
  | Call _ => False
  | _ => True
  end.

(** A run keeps a property [Q] of the session that holds before it. *)
Definition preserves {World A : Type} (Q : State.t -> Prop) (p : @M World A) : Prop :=
  forall m, Q (sess m) -> Q (sess (snd (p m))).

(** An outcome that is a result or a [KafkaException]. *)
Definition Kafka_or_result {A : Type} (r : outcome A) : Prop :=
  match r with
  | Raise (PyException _ _) => False
  | _ => True
  end.

(** A run that always returns, and a run that returns or raises a
    [KafkaException]. *)
Definition returns {World A : Type} (p : @M World A) : Prop :=
  forall m, exists a, fst (p m) = Return a.

Definition raises_Kafka_only {World A : Type} (p : @M World A) : Prop :=
  forall m, Kafka_or_result (fst (p m)).

(** The client library fails with [KafkaException] only. *)
Definition library_raises_Kafka_only {World : Type} (env : Env World) : Prop :=
  (forall conf w, Kafka_or_result (fst (AdminClient_init env conf w))) /\
  (forall conf w, Kafka_or_result (fst (Consumer_init env conf w))) /\
  (forall a t w, Kafka_or_result (fst (admin_list_topics env a t w))) /\
  (forall c t w, Kafka_or_result (fst (consumer_list_topics env c t w))) /\
  (forall a res w, Kafka_or_result (fst (describe_configs env a res w))).

(** A cell that is not a list. *)
Definition plain (c : cell) : Prop :=
  match c with CVal (JList _) => False | _ => True end.

(** ** Properties *)

Section Properties.
Context {World : Type} (env : Env World).

Local Abbreviation M := (@M World).

Lemma app_events (l : list event) (es : list event) :
  drop (length l) (l ++ es) = es.
Proof. by rewrite drop_app_length. Qed.

(** *** Rules for [keeps] and [emits_only] *)

Section Rules.
Context {X : Type} (f : State.t -> X) (P : event -> Prop).

Lemma keeps_ret {A} (a : A) : keeps (World:=World) f (ret a).
Proof. by intros m. Qed.

Lemma keeps_raise {A} e : keeps (World:=World) (A:=A) f (raise e).
Proof. by intros m. Qed.

Lemma keeps_emit e : keeps (World:=World) f (emit e).
Proof. by intros m. Qed.

Lemma keeps_get_S : keeps (World:=World) f get_S.
Proof. by intros m. Qed.

Lemma keeps_outside {A} c (g : World -> outcome A * World) : keeps f (outside c g).
Proof. intros m. unfold outside. by destruct (g (world m)). Qed.

Lemma keeps_bind {A B} (p : M A) (k : A -> M B) :
  keeps f p -> (forall a, keeps f (k a)) -> keeps f (bind p k).
Proof.
  intros Hp Hk m. unfold bind. specialize (Hp m).
  destruct (p m) as [[a|e] m']; simpl in *; [|done].
  rewrite <- Hp. apply Hk.
Qed.

Lemma keeps_try {A} (body : M A) (h : string -> M A) :
  keeps f body -> (forall msg, keeps f (h msg)) ->
  keeps f (try_except_KafkaException body h).
Proof.
  intros Hb Hh m. unfold try_except_KafkaException. specialize (Hb m).
  destruct (body m) as [[a|[msg|cls msg]] m']; simpl in *; try done.
  rewrite <- Hb. apply Hh.
Qed.

Lemma keeps_for_each {A} (l : list A) (body : A -> M unit) :
  (forall x, keeps f (body x)) -> keeps f (for_each l body).
Proof.
  intros Hb. induction l as [|x l IH]; simpl.
  - apply keeps_ret.
  - apply keeps_bind; auto.
Qed.

Lemma emits_ret {A} (a : A) : emits_only (World:=World) P (ret a).
Proof. intros m. exists []. by rewrite app_nil_r. Qed.

Lemma emits_raise {A} e : emits_only (World:=World) (A:=A) P (raise e).
Proof. intros m. exists []. by rewrite app_nil_r. Qed.

Lemma emits_get_S : emits_only (World:=World) P get_S.
Proof. intros m. exists []. by rewrite app_nil_r. Qed.

Lemma emits_put_S s : emits_only (World:=World) P (put_S s).
Proof. intros m. exists []. by rewrite app_nil_r. Qed.

Lemma emits_emit e : P e -> emits_only (World:=World) P (emit e).
Proof. intros He m. exists [e]. split; [done|]. by constructor. Qed.

Lemma emits_outside {A} c (g : World -> outcome A * World) :
  P (Call c) -> emits_only P (outside c g).
Proof.
  intros Hc m. exists [Call c]. unfold outside.
  destruct (g (world m)). split; [done|]. by constructor.
Qed.

Lemma emits_bind {A B} (p : M A) (k : A -> M B) :
  emits_only P p -> (forall a, emits_only P (k a)) -> emits_only P (bind p k).
Proof.
  intros Hp Hk m. unfold bind. destruct (Hp m) as (es & He & HP).
  destruct (p m) as [[a|e] m']; simpl in *; [|by exists es].
  destruct (Hk a m') as (es' & He' & HP').
  exists (es ++ es')%list. rewrite He', He, app_assoc. split; [done|].
  by apply Forall_app.
Qed.

Lemma emits_try {A} (body : M A) (h : string -> M A) :
  emits_only P body -> (forall msg, emits_only P (h msg)) ->
  emits_only P (try_except_KafkaException body h).
Proof.
  intros Hb Hh m. unfold try_except_KafkaException.
  destruct (Hb m) as (es & He & HP).
  destruct (body m) as [[a|[msg|cls msg]] m']; simpl in *; try by exists es.
  destruct (Hh msg m') as (es' & He' & HP').
  exists (es ++ es')%list. rewrite He', He, app_assoc. split; [done|].
  by apply Forall_app.
Qed.

Lemma emits_for_each {A} (l : list A) (body : A -> M unit) :
  (forall x, emits_only P (body x)) -> emits_only P (for_each l body).
Proof.
  intros Hb. induction l as [|x l IH]; simpl.
  - apply emits_ret.
  - apply emits_bind; auto.
Qed.
End Rules.

Lemma emits_put_get P (g : State.t -> State.t) :
  emits_only (World:=World) P (let* s := get_S in put_S (g s)).
Proof. intros m. exists []. by rewrite app_nil_r. Qed.

(** Syntax-directed use of the rules for [emits_only]. *)
Ltac emits :=
  repeat match goal with
         | |- emits_only _ (set_admin _) => apply emits_put_get
         | |- emits_only _ (set_consumer _) => apply emits_put_get
         | |- emits_only _ (set_broker _) => apply emits_put_get
         | |- emits_only _ (set_config _) => apply emits_put_get
         | |- emits_only _ (describe_broker _ _ _) => unfold describe_broker
         | |- emits_only _ (report_brokers _) => unfold report_brokers
         | |- emits_only _ (report_configs _ _ _) => unfold report_configs
         | |- emits_only _ (bind _ _) => apply emits_bind
         | |- emits_only _ (try_except_KafkaException _ _) => apply emits_try
         | |- emits_only _ (for_each _ _) => apply emits_for_each
         | |- emits_only _ (outside _ _) => apply emits_outside
         | |- emits_only _ (print _) => apply emits_emit
         | |- emits_only _ (tprint _) => apply emits_emit
         | |- emits_only _ (tprint_items _ _) => apply emits_emit
         | |- emits_only _ (ret _) => apply emits_ret
         | |- emits_only _ (raise _) => apply emits_raise
         | |- emits_only _ get_S => apply emits_get_S
         | |- emits_only _ (if ?b then _ else _) => destruct b
         | |- emits_only _ (match ?x with _ => _ end) => destruct x
         | |- forall _, _ => intro
         end.

(** The first event of a run, when the run starts with an outside call. *)
Lemma head_outside {A} c (g : World -> outcome A * World) m :
  head (events_of (outside c g) m) = Some (Call c).
Proof.
  unfold events_of, outside. destruct (g (world m)). simpl. by rewrite app_events.
Qed.

Lemma events_of_bind_ret {A B} (a : A) (k : A -> M B) m :
  events_of (bind (ret a) k) m = events_of (k a) m.
Proof. reflexivity. Qed.

Lemma head_extend (l1 l2 es : list event) e :
  head (drop (length l1) l2) = Some e ->
  head (drop (length l1) (l2 ++ es)) = Some e.
Proof.
  intros H. rewrite drop_app.
  destruct (drop (length l1) l2); [done|]. exact H.
Qed.

Lemma head_bind {A B} (p : M A) (k : A -> M B) m e :
  head (events_of p m) = Some e ->
  (forall a, emits_only (fun _ => True) (k a)) ->
  head (events_of (bind p k) m) = Some e.
Proof.
  unfold events_of, bind. intros Hp Hk.
  destruct (p m) as [[a|x] m']; simpl in *; [|done].
  destruct (Hk a m') as (es & -> & _). by apply head_extend.
Qed.

Lemma head_try {A} (body : M A) (h : string -> M A) m e :
  head (events_of body m) = Some e ->
  (forall msg, emits_only (fun _ => True) (h msg)) ->
  head (events_of (try_except_KafkaException body h) m) = Some e.
Proof.
  unfold events_of, try_except_KafkaException. intros Hp Hk.
  destruct (body m) as [[a|[msg|cls msg]] m']; simpl in *; try done.
  destruct (Hk msg m') as (es & -> & _). by apply head_extend.
Qed.

Lemma emits_only_events {A} P (p : M A) m :
  emits_only P p -> Forall P (events_of p m).
Proof.
  intros H. destruct (H m) as (es & He & HP).
  unfold events_of. by rewrite He, app_events.
Qed.

(** *** Configuration management *)

Lemma exec_load_raised (fpath : string) (m : Machine World) e w :
  json_load env fpath (world m) = (Raise e, w) ->
  exec_load env fpath m =
    (Return tt,
     {| sess := sess m; world := w;
        trace := trace m ++ [Call (CallJsonLoad fpath);
                             Print (" (-) Could not load file: " +:+ fpath)] |}).
Proof.
  intros H. unfold exec_load, try_except_Exception, bind, outside, print, emit, ret.
  rewrite H. simpl. by rewrite <- app_assoc.
Qed.

Lemma exec_load_not_object (fpath : string) (m : Machine World) v w :
  json_load env fpath (world m) = (Return v, w) ->
  isinstance_dict v = false ->
  exec_load env fpath m =
    (Return tt,
     {| sess := sess m; world := w;
        trace := trace m ++ [Call (CallJsonLoad fpath);
                             Print " (-) Configuration must be an object"] |}).
Proof.
  intros H Hv. unfold exec_load, try_except_Exception, bind, outside, print, emit, ret.
  rewrite H. destruct v; try discriminate Hv; simpl; by rewrite <- app_assoc.
Qed.

Lemma exec_load_object (fpath : string) (m : Machine World) new w :
  json_load env fpath (world m) = (Return (JDict new), w) ->
  fst (exec_load env fpath m) = Return tt /\
  State.config (sess (snd (exec_load env fpath m))) = new ∪ State.config (sess m) /\
  world (snd (exec_load env fpath m)) = w.
Proof.
  intros H.
  unfold exec_load, try_except_Exception, bind, outside, print, emit, ret,
    get_config, set_config, get_S, put_S, print_config, tprint, emit.
  rewrite H. simpl. destruct (decide (new = ∅)); simpl; auto.
Qed.

(** C3. When the file cannot be read or parsed, or its top level is not
    an object, [exec_load] returns normally after one diagnostic line and
    the session, hence the whole configuration store, is what it was. *)
Theorem exec_load_rejected_keeps_config (fpath : string) (m : Machine World) :
  load_rejected (fst (json_load env fpath (world m))) ->
  exec_load env fpath m =
    (Return tt,
     {| sess := sess m;
        world := snd (json_load env fpath (world m));
        trace := trace m ++
          [Call (CallJsonLoad fpath);
           Print (match fst (json_load env fpath (world m)) with
                  | Raise _ => " (-) Could not load file: " +:+ fpath
                  | Return _ => " (-) Configuration must be an object"
                  end)] |}).
Proof.
  destruct (json_load env fpath (world m)) as [[v|e] w] eqn:E; simpl; intros H.
  - by apply exec_load_not_object with v.
  - by apply exec_load_raised with e.
Qed.

(** C4. Loading a document whose top level is an object is a shallow
    override merge: a key of the document gets the document's value, any
    other key keeps its value. Loading a second document that holds one
    key only, after a first one, leaves the store of the first load with
    that key replaced; from an empty store this is the first mapping with
    that key replaced. *)
Theorem exec_load_shallow_override (fpath : string) (m : Machine World)
        (new : gmap string json) :
  fst (json_load env fpath (world m)) = Return (JDict new) ->
  let m1 := snd (exec_load env fpath m) in
  fst (exec_load env fpath m) = Return tt /\
  (forall k v, new !! k = Some v -> State.config (sess m1) !! k = Some v) /\
  (forall k, new !! k = None ->
             State.config (sess m1) !! k = State.config (sess m) !! k) /\
  (forall fpath2 k v,
      fst (json_load env fpath2 (world m1)) = Return (JDict {[ k := v ]}) ->
      let m2 := snd (exec_load env fpath2 m1) in
      State.config (sess m2) = <[ k := v ]> (new ∪ State.config (sess m)) /\
      (State.config (sess m) = ∅ -> State.config (sess m2) = <[ k := v ]> new) /\
      State.config (sess m2) !! k = Some v /\
      (forall k', k' <> k ->
                  State.config (sess m2) !! k' = State.config (sess m1) !! k')).
Proof.
  intros H m1.
  destruct (json_load env fpath (world m)) as [r w] eqn:E. simpl in H. subst r.
  destruct (exec_load_object fpath m new w E) as (Hr & Hc & Hw).
  split; [exact Hr|]. subst m1. rewrite Hc.
  split; [|split].
  - intros k v Hk. by apply lookup_union_Some_l.
  - intros k Hk. by apply lookup_union_r.
  - intros fpath2 k v H2 m2.
    destruct (json_load env fpath2 (world (snd (exec_load env fpath m))))
      as [r2 w2] eqn:E2.
    simpl in H2. subst r2.
    destruct (exec_load_object fpath2 _ _ w2 E2) as (_ & Hc2 & _).
    subst m2. rewrite Hc2, Hc. rewrite <- insert_union_singleton_l.
    split; [done|]. split.
    + intros ->. by rewrite (right_id_L ∅ (∪)).
    + split; [by rewrite lookup_insert_eq|].
      intros k' Hne. by rewrite lookup_insert_ne.
Qed.

(** *** Connection handling *)

Lemma default_group_id_present (m : Machine World) :
  State.config (sess m) !! "group.id" <> None ->
  default_group_id env m = (Return tt, m).
Proof.
  intros H. unfold default_group_id, bind, get_config, get_S, ret. simpl.
  by destruct (decide (State.config (sess m) !! "group.id" = None)).
Qed.

Lemma default_group_id_absent (m : Machine World) :
  State.config (sess m) !! "group.id" = None ->
  default_group_id env m =
    (Return tt,
     {| sess := State.with_config
                  (<["group.id" := JStr (fst (uuid4_hex env (world m)))]>
                     (State.config (sess m))) (sess m);
        world := snd (uuid4_hex env (world m));
        trace := trace m ++
          [Call CallUuid4;
           Print (" (+) Group ID not configured, using: "
                    +:+ fst (uuid4_hex env (world m)));
           Print ""] |}).
Proof.
  intros H.
  unfold default_group_id, bind, get_config, set_config, get_S, put_S, ret,
    outside, print, emit. simpl.
  destruct (decide (State.config (sess m) !! "group.id" = None)); [|done].
  destruct (uuid4_hex env (world m)) as [g w]. simpl.
  by rewrite <- !app_assoc.
Qed.

Lemma exec_connect_after_default (m : Machine World) :
  exec_connect env m = connect_clients env (snd (default_group_id env m)).
Proof.
  unfold exec_connect, bind.
  destruct (decide (State.config (sess m) !! "group.id" = None)) as [Hg|Hg].
  - by rewrite (default_group_id_absent m Hg).
  - by rewrite (default_group_id_present m Hg).
Qed.

Lemma keeps_config_set_admin a : keeps (World:=World) State.config (set_admin a).
Proof. by intros m. Qed.

Lemma keeps_config_set_consumer c : keeps (World:=World) State.config (set_consumer c).
Proof. by intros m. Qed.

Lemma keeps_config_set_broker b : keeps (World:=World) State.config (set_broker b).
Proof. by intros m. Qed.

Lemma emits_setters P :
  (forall a, emits_only (World:=World) P (set_admin a)) /\
  (forall c, emits_only (World:=World) P (set_consumer c)) /\
  (forall b, emits_only (World:=World) P (set_broker b)).
Proof.
  repeat split; intros x m; exists []; by rewrite app_nil_r.
Qed.

Ltac keeps_config :=
  repeat match goal with
         | |- keeps _ (set_admin _) => apply keeps_config_set_admin
         | |- keeps _ (set_consumer _) => apply keeps_config_set_consumer
         | |- keeps _ (set_broker _) => apply keeps_config_set_broker
         | |- keeps _ (bind _ _) => apply keeps_bind
         | |- keeps _ (try_except_KafkaException _ _) => apply keeps_try
         | |- keeps _ (outside _ _) => apply keeps_outside
         | |- keeps _ (print _) => apply keeps_emit
         | |- keeps _ (tprint _) => apply keeps_emit
         | |- keeps _ (tprint_items _ _) => apply keeps_emit
         | |- keeps _ (ret _) => apply keeps_ret
         | |- keeps _ get_S => apply keeps_get_S
         | |- forall _, _ => intro
         end.

Lemma keeps_config_connect_clients : keeps State.config (connect_clients env).
Proof.
  unfold connect_clients, get_config.
  apply keeps_bind; [apply keeps_bind; [apply keeps_get_S|intros; apply keeps_ret]|].
  intros config. destruct (config !! "bootstrap.servers") as [v|]; [|apply keeps_emit].
  apply keeps_bind.
  - destruct v; try apply keeps_ret. simpl. destruct l; [apply keeps_raise|].
    apply keeps_bind; [apply keeps_outside|intros; apply keeps_ret].
  - intros b. unfold instantiate_admin, instantiate_consumer.
    keeps_config.
Qed.

(** From the bootstrap check on, [exec_connect] draws no identifier. *)
Lemma connect_clients_draws_no_uuid :
  emits_only (fun e => e <> Call CallUuid4) (connect_clients env).
Proof.
  destruct (emits_setters (fun e => e <> Call CallUuid4)) as (Ha & Hc & Hb).
  unfold connect_clients, get_config.
  apply emits_bind; [apply emits_bind; [apply emits_get_S|intros; apply emits_ret]|].
  intros config.
  destruct (config !! "bootstrap.servers") as [v|]; [|by apply emits_emit].
  apply emits_bind.
  - destruct v; try apply emits_ret. simpl. destruct l; [apply emits_raise|].
    apply emits_bind; [by apply emits_outside|intros; apply emits_ret].
  - intros b. unfold instantiate_admin, instantiate_consumer.
    repeat match goal with
           | |- emits_only _ (set_admin _) => apply Ha
           | |- emits_only _ (set_consumer _) => apply Hc
           | |- emits_only _ (set_broker _) => apply Hb
           | |- emits_only _ (bind _ _) => apply emits_bind
           | |- emits_only _ (try_except_KafkaException _ _) => apply emits_try
           | |- emits_only _ (outside _ _) => by apply emits_outside
           | |- emits_only _ (print _) => by apply emits_emit
           | |- forall _, _ => intro
           end.
Qed.

(** With the group id in place and no bootstrap address, [exec_connect]
    prints its diagnostic and does nothing else. *)
Lemma exec_connect_no_bootstrap (m : Machine World) :
  State.config (sess m) !! "group.id" <> None ->
  State.config (sess m) !! "bootstrap.servers" = None ->
  exec_connect env m =
    (Return tt,
     {| sess := sess m; world := world m;
        trace := trace m ++ [Print " (-) Bootstrap server not configured"] |}).
Proof.
  intros Hg Hb. unfold exec_connect, bind.
  rewrite (default_group_id_present m Hg).
  unfold connect_clients, get_config, get_S, bind, ret. simpl. by rewrite Hb.
Qed.

(** Without a group id and without a bootstrap address, the group id is
    drawn and stored before the diagnostic. *)
Lemma exec_connect_no_bootstrap_no_group_id (m : Machine World) :
  State.config (sess m) !! "group.id" = None ->
  State.config (sess m) !! "bootstrap.servers" = None ->
  exec_connect env m =
    (Return tt,
     {| sess := State.with_config
                  (<["group.id" := JStr (fst (uuid4_hex env (world m)))]>
                     (State.config (sess m))) (sess m);
        world := snd (uuid4_hex env (world m));
        trace := trace m ++
          [Call CallUuid4;
           Print (" (+) Group ID not configured, using: "
                    +:+ fst (uuid4_hex env (world m)));
           Print "";
           Print " (-) Bootstrap server not configured"] |}).
Proof.
  intros Hg Hb. unfold exec_connect, bind.
  rewrite (default_group_id_absent m Hg).
  unfold connect_clients, get_config, get_S, bind, ret, print, emit. simpl.
  rewrite lookup_insert_ne by done. rewrite Hb. simpl.
  by rewrite <- app_assoc.
Qed.

(** C5. Without a bootstrap address [exec_connect] returns after its
    diagnostic: it constructs no client and sends no request, and a
    session that was never connected still has no admin handle, no
    consumer handle and the "not connected" label. *)
Theorem exec_connect_requires_bootstrap (m : Machine World) :
  State.config (sess m) !! "bootstrap.servers" = None ->
  never_connected (sess m) ->
  fst (exec_connect env m) = Return tt /\
  never_connected (sess (snd (exec_connect env m))) /\
  Forall (fun e => is_client_call e = false) (events_of (exec_connect env) m) /\
  last (events_of (exec_connect env) m) =
    Some (Print " (-) Bootstrap server not configured").
Proof.
  intros Hb Hn.
  destruct (decide (State.config (sess m) !! "group.id" = None)) as [Hg|Hg].
  - unfold events_of. rewrite (exec_connect_no_bootstrap_no_group_id m Hg Hb).
    simpl. rewrite app_events. repeat split; try apply Hn.
    repeat constructor.
  - unfold events_of. rewrite (exec_connect_no_bootstrap m Hg Hb).
    simpl. rewrite app_events. repeat split; try apply Hn.
    repeat constructor.
Qed.

(** The three outcomes of the admin construction. *)
Lemma instantiate_admin_ok config b (m : Machine World) a w :
  AdminClient_init env (admin_conf config b) (world m) = (Return a, w) ->
  instantiate_admin env config b m =
    (Return tt,
     {| sess := State.with_broker b (State.with_admin (Some a) (sess m));
        world := w;
        trace := trace m ++ [Call (CallAdminClient (admin_conf config b));
                             Print " (+) Admin client connected"] |}).
Proof.
  intros H.
  unfold instantiate_admin, try_except_KafkaException, bind, outside, print, emit.
  rewrite H. simpl. by rewrite <- app_assoc.
Qed.

Lemma instantiate_admin_kafka config b (m : Machine World) msg w :
  AdminClient_init env (admin_conf config b) (world m) = (Raise (KafkaException msg), w) ->
  instantiate_admin env config b m =
    (Return tt,
     {| sess := sess m; world := w;
        trace := trace m ++ [Call (CallAdminClient (admin_conf config b));
                             Print (" (-) Admin client connection failed: " +:+ msg)] |}).
Proof.
  intros H.
  unfold instantiate_admin, try_except_KafkaException, bind, outside, print, emit.
  rewrite H. simpl. by rewrite <- app_assoc.
Qed.

Lemma instantiate_consumer_ok config b (m : Machine World) c w :
  Consumer_init env (consumer_conf config b) (world m) = (Return c, w) ->
  instantiate_consumer env config b m =
    (Return tt,
     {| sess := State.with_broker b (State.with_consumer (Some c) (sess m));
        world := w;
        trace := trace m ++ [Call (CallConsumer (consumer_conf config b));
                             Print " (+) Consumer connected"] |}).
Proof.
  intros H.
  unfold instantiate_consumer, try_except_KafkaException, bind, outside, print, emit.
  rewrite H. simpl. by rewrite <- app_assoc.
Qed.

Lemma instantiate_consumer_kafka config b (m : Machine World) msg w :
  Consumer_init env (consumer_conf config b) (world m) = (Raise (KafkaException msg), w) ->
  instantiate_consumer env config b m =
    (Return tt,
     {| sess := sess m; world := w;
        trace := trace m ++ [Call (CallConsumer (consumer_conf config b));
                             Print (" (-) Consumer connection failed: " +:+ msg)] |}).
Proof.
  intros H.
  unfold instantiate_consumer, try_except_KafkaException, bind, outside, print, emit.
  rewrite H. simpl. by rewrite <- app_assoc.
Qed.


(** Once the bootstrap address is resolved, the two constructions run in
    turn; resolving touches neither the session nor the configuration. *)
Lemma connect_clients_resolved (m m2 : Machine World) v b :
  State.config (sess m) !! "bootstrap.servers" = Some v ->
  resolve_bootstrap env v m = (Return b, m2) ->
  sess m2 = sess m /\
  connect_clients env m =
    (instantiate_admin env (State.config (sess m)) b ;;
     print "" ;;
     instantiate_consumer env (State.config (sess m)) b) m2.
Proof.
  intros Hv Hr. split.
  - destruct v; simpl in Hr; try (by inversion Hr).
    destruct l; [discriminate Hr|].
    unfold random_choice, bind, outside, ret in Hr.
    destruct (randbelow env (length (j :: l)) (world m)). by inversion Hr.
  - unfold connect_clients, get_config, get_S, bind at 1 2, ret. simpl.
    rewrite Hv. unfold bind at 1. by rewrite Hr.
Qed.


(** Whatever happens later in the call, a missing group id is stored. *)
Lemma exec_connect_config_after (m : Machine World) :
  State.config (sess m) !! "group.id" = None ->
  State.config (sess (snd (exec_connect env m)))
    = <["group.id" := JStr (fst (uuid4_hex env (world m)))]> (State.config (sess m)).
Proof.
  intros Hg. rewrite exec_connect_after_default, keeps_config_connect_clients.
  by rewrite (default_group_id_absent m Hg).
Qed.

(** An empty list of bootstrap addresses: [random.choice] raises and
    nothing in [exec_connect] catches it. *)
Lemma exec_connect_empty_list_raises (m : Machine World) :
  State.config (sess m) !! "bootstrap.servers" = Some (JList []) ->
  fst (exec_connect env m)
    = Raise (PyException "IndexError" "Cannot choose from an empty sequence").
Proof.
  intros Hb. rewrite exec_connect_after_default.
  assert (Hb' : State.config (sess (snd (default_group_id env m)))
                !! "bootstrap.servers" = Some (JList [])).
  { destruct (decide (State.config (sess m) !! "group.id" = None)) as [Hg|Hg].
    - rewrite (default_group_id_absent m Hg). simpl.
      by rewrite lookup_insert_ne.
    - by rewrite (default_group_id_present m Hg). }
  unfold connect_clients, get_config, get_S, bind, ret. simpl. by rewrite Hb'.
Qed.

(** C9. With no group id in the configuration, [exec_connect] stores the
    identifier it draws in the session's configuration mapping before it
    looks for the bootstrap address. A call that stops for a missing
    bootstrap address has drawn, stored and reported the identifier
    first; the next call finds it, draws none and leaves the mapping as
    it is. *)
Theorem exec_connect_stores_group_id (m : Machine World) :
  State.config (sess m) !! "group.id" = None ->
  let gid := fst (uuid4_hex env (world m)) in
  let m1 := snd (exec_connect env m) in
  State.config (sess m1) = <["group.id" := JStr gid]> (State.config (sess m)) /\
  (State.config (sess m) !! "bootstrap.servers" = None ->
     fst (exec_connect env m) = Return tt /\
     events_of (exec_connect env) m =
       [Call CallUuid4;
        Print (" (+) Group ID not configured, using: " +:+ gid);
        Print "";
        Print " (-) Bootstrap server not configured"] /\
     events_of (exec_connect env) m1 =
       [Print " (-) Bootstrap server not configured"]) /\
  Forall (fun e => e <> Call CallUuid4) (events_of (exec_connect env) m1) /\
  State.config (sess (snd (exec_connect env m1))) = State.config (sess m1).
Proof.
  intros Hg gid m1.
  assert (Hc : State.config (sess m1)
               = <["group.id" := JStr gid]> (State.config (sess m))).
  { subst m1 gid. by apply exec_connect_config_after. }
  assert (Hg1 : State.config (sess m1) !! "group.id" <> None).
  { by rewrite Hc, lookup_insert_eq. }
  assert (E1 : exec_connect env m1 = connect_clients env m1).
  { by rewrite exec_connect_after_default, (default_group_id_present m1 Hg1). }
  split; [exact Hc|]. split; [|split].
  - intros Hb.
    assert (Hb1 : State.config (sess m1) !! "bootstrap.servers" = None).
    { rewrite Hc, lookup_insert_ne by done. exact Hb. }
    unfold events_of at 2. rewrite (exec_connect_no_bootstrap m1 Hg1 Hb1).
    simpl. rewrite app_events.
    subst m1. unfold events_of.
    rewrite (exec_connect_no_bootstrap_no_group_id m Hg Hb).
    simpl. by rewrite app_events.
  - unfold events_of. rewrite E1.
    apply (emits_only_events _ (connect_clients env) m1).
    apply connect_clients_draws_no_uuid.
  - rewrite E1. apply keeps_config_connect_clients.
Qed.

Lemma keeps_session_exec_disconnect admin consumer :
  keeps (fun s => s) (exec_disconnect env admin consumer).
Proof.
  unfold exec_disconnect.
  destruct admin, consumer; simpl; keeps_config.
Qed.

Lemma exec_disconnect_emits admin consumer P :
  (forall e, is_None admin && is_None consumer = false ->
             e <> Print " (-) Not connected" -> P e) ->
  (is_None admin && is_None consumer = true -> forall e, P e) ->
  emits_only P (exec_disconnect env admin consumer).
Proof.
  intros HP HN. unfold exec_disconnect.
  destruct admin, consumer; simpl in *; emits;
    try (apply HP; done); try (apply HN; done).
Qed.

(** C10. [exec_disconnect] leaves the session as it was, so both handle
    fields still hold the handles it has just closed. When a handle was
    present, the next [exec_disconnect] on the session's fields starts by
    closing it once more and never prints "Not connected", and the next
    [exec_cluster] starts with the metadata request instead of the "Not
    connected" return. *)
Theorem exec_disconnect_keeps_handles (m : Machine World) :
  let m1 := snd (exec_disconnect env (State.admin (sess m))
                   (State.consumer (sess m)) m) in
  let again := exec_disconnect env (State.admin (sess m1)) (State.consumer (sess m1)) in
  let discover := exec_cluster env (State.admin (sess m1)) (State.consumer (sess m1)) in
  sess m1 = sess m /\
  (forall a, State.admin (sess m) = Some a ->
     head (events_of again m1) = Some (Call (CallAdminClose a)) /\
     head (events_of discover m1) = Some (Call (CallAdminListTopics a 15))) /\
  (forall c, State.admin (sess m) = None -> State.consumer (sess m) = Some c ->
     head (events_of again m1) = Some (Call (CallConsumerClose c)) /\
     head (events_of discover m1) = Some (Call (CallConsumerListTopics c 15))) /\
  (is_None (State.admin (sess m)) && is_None (State.consumer (sess m)) = false ->
     Forall (fun e => e <> Print " (-) Not connected") (events_of again m1)).
Proof.
  intros m1 again discover.
  assert (Hs : sess m1 = sess m).
  { subst m1. apply (keeps_session_exec_disconnect _ _ m). }
  split; [exact Hs|]. subst again discover. rewrite Hs.
  split; [|split].
  - intros a Ha. rewrite Ha. split.
    + unfold exec_disconnect. simpl. rewrite events_of_bind_ret.
      apply head_bind; [|intros; emits; done].
      apply head_bind; [|intros; emits; done]. apply head_outside.
    + unfold exec_cluster. simpl.
      apply head_bind; [|intros meta; emits; done].
      unfold fetch_meta. apply head_try; [|intros; emits; done].
      apply head_bind; [|intros; emits; done]. apply head_outside.
  - intros c Ha Hc. rewrite Ha, Hc. split.
    + unfold exec_disconnect. simpl. rewrite !events_of_bind_ret.
      apply head_bind; [|intros; emits; done]. apply head_outside.
    + unfold exec_cluster. simpl.
      apply head_bind; [|intros meta; emits; done].
      unfold fetch_meta. apply head_try; [|intros; emits; done].
      apply head_bind; [|intros; emits; done]. apply head_outside.
  - intros Hn. apply emits_only_events. apply exec_disconnect_emits; [auto|].
    intros Hn'. congruence.
Qed.


(** *** Cluster enumeration *)

Lemma in_brokers_In (i : Z) (d : list (Z * BrokerMetadata)) :
  in_brokers i d = true <-> In i (map fst d).
Proof.
  unfold in_brokers. rewrite existsb_exists. split.
  - intros (x & Hx & Heq). apply Z.eqb_eq in Heq. by subst.
  - intros Hi. exists i. split; [done|]. apply Z.eqb_refl.
Qed.

(** C8. Once a metadata snapshot is obtained, [exec_cluster] prints, for
    the origin broker id and for the controller id, the "valid" line when
    the id is a key of the snapshot's broker dict and the "Invalid" line
    when it is not, and in every case goes on to the per-broker
    configuration requests. *)
Theorem exec_cluster_validates_ids admin consumer (m m1 : Machine World)
        (meta : ClusterMetadata) :
  fetch_meta env admin consumer m = (Return (Some meta), m1) ->
  exists origin controller : string,
    (In (orig_broker_id meta) (map fst (brokers meta)) ->
     origin = " (+) Metadata origin broker ID: " +:+ str_int (orig_broker_id meta)) /\
    (~ In (orig_broker_id meta) (map fst (brokers meta)) ->
     origin = " (-) Invalid metadata origin broker ID: "
                +:+ str_int (orig_broker_id meta)) /\
    (In (controller_id meta) (map fst (brokers meta)) ->
     controller = " (+) Controller broker ID: " +:+ str_int (controller_id meta)) /\
    (~ In (controller_id meta) (map fst (brokers meta)) ->
     controller = " (-) Invalid controller broker ID: "
                    +:+ str_int (controller_id meta)) /\
    exec_cluster env admin consumer m =
      report_configs env admin (Some meta)
        {| sess := sess m1; world := world m1;
           trace := trace m1 ++
             [Print (" (+) Cluster ID: " +:+ str_opt (cluster_id meta));
              Print "";
              Print (" (+) Metadata origin broker name: "
                       +:+ str_opt (orig_broker_name meta));
              Print "";
              Tprint ([CStr "ID"; CStr "Host"; CStr "Port"]
                        :: map broker_row (sorted id Z.leb (values (brokers meta))));
              Print "";
              Print origin;
              Print "";
              Print controller;
              Print ""] |}.
Proof.
  intros H.
  assert (Hh : is_None admin && is_None consumer = false).
  { destruct admin, consumer; try done. all: discriminate H. }
  exists (if in_brokers (orig_broker_id meta) (brokers meta)
          then " (+) Metadata origin broker ID: " +:+ str_int (orig_broker_id meta)
          else " (-) Invalid metadata origin broker ID: "
                 +:+ str_int (orig_broker_id meta)),
         (if in_brokers (controller_id meta) (brokers meta)
          then " (+) Controller broker ID: " +:+ str_int (controller_id meta)
          else " (-) Invalid controller broker ID: " +:+ str_int (controller_id meta)).
  pose proof (in_brokers_In (orig_broker_id meta) (brokers meta)) as Ho.
  pose proof (in_brokers_In (controller_id meta) (brokers meta)) as Hc.
  repeat split.
  - intros Hi. apply Ho in Hi. by rewrite Hi.
  - intros Hi. destruct (in_brokers (orig_broker_id meta) (brokers meta)); [|done].
    exfalso. apply Hi, Ho. done.
  - intros Hi. apply Hc in Hi. by rewrite Hi.
  - intros Hi. destruct (in_brokers (controller_id meta) (brokers meta)); [|done].
    exfalso. apply Hi, Hc. done.
  - unfold exec_cluster. rewrite Hh. unfold bind at 1. rewrite H.
    unfold report_brokers, bind, print, tprint, emit. simpl.
    destruct (in_brokers (orig_broker_id meta) (brokers meta)),
             (in_brokers (controller_id meta) (brokers meta));
      simpl; by rewrite <- !app_assoc.
Qed.

(** [sorted] keeps the elements of its argument. *)
Lemma In_insert_sorted {A K} (key : A -> K) (leb : K -> K -> bool) x y l :
  In y (insert_sorted key leb x l) <-> y = x \/ In y l.
Proof.
  induction l as [|z l IH]; simpl.
  - intuition.
  - destruct (leb (key z) (key x)); simpl; rewrite ?IH; intuition.
Qed.

Lemma In_sorted {A K} (key : A -> K) (leb : K -> K -> bool) y l :
  In y (sorted key leb l) <-> In y l.
Proof.
  unfold sorted.
  assert (G : forall acc, In y (fold_left (fun acc x => insert_sorted key leb x acc) l acc)
                          <-> In y acc \/ In y l).
  { induction l as [|x l IH]; intros acc; simpl.
    - intuition.
    - rewrite IH, In_insert_sorted. intuition. }
  rewrite G. simpl. intuition.
Qed.

(** Which entries of a fetch result get a row: those whose key occurs
    inside the string "ssl.client.auth". *)
Lemma entry_rows_shown (entries : gmap string ConfigEntry) (r : list cell) :
  In r (entry_rows entries) <->
  exists k e, entries !! k = Some e /\ str_in k "ssl.client.auth" = true /\
              r = entry_row e.
Proof.
  unfold entry_rows, sorted_items, shown. rewrite in_map_iff. split.
  - intros ([k e] & <- & Hin). apply filter_In in Hin as [Hin Hs].
    apply In_sorted, list_elem_of_In, elem_of_map_to_list in Hin.
    by exists k, e.
  - intros (k & e & Hl & Hs & ->). exists (k, e). split; [done|].
    apply filter_In. split; [|done].
    by apply In_sorted, list_elem_of_In, elem_of_map_to_list.
Qed.

Lemma requested_brokers_app (es1 es2 : list event) :
  requested_brokers (es1 ++ es2) = (requested_brokers es1 ++ requested_brokers es2)%list.
Proof. apply omap_app. Qed.

(** One turn of the loop over the brokers: the request, then either the
    table or the diagnostic that names the broker. *)
Lemma describe_broker_run a (broker : BrokerMetadata) (m : Machine World) :
  describe_answers_or_fails env ->
  let res := {| restype := BROKER; resname := str_int (id broker) |} in
  exists e,
    describe_broker env a broker m =
      (Return tt,
       {| sess := sess m; world := snd (describe_configs env a res (world m));
          trace := trace m ++ [Call (CallDescribeConfigs a res); e] |}) /\
    match fst (describe_configs env a res (world m)) with
    | Return entries => e = Tprint (config_header :: entry_rows entries)
    | Raise _ => e = Print (" (-) Could not describe broker " +:+ str_int (id broker))
    end.
Proof.
  intros Hd res. specialize (Hd a res (world m)).
  unfold describe_broker, try_except_KafkaException, bind, outside, tprint, print, emit.
  fold res.
  destruct (describe_configs env a res (world m)) as [[entries|[msg|cls msg]] w];
    simpl in *; [| |done]; eexists; (split; [by rewrite <- app_assoc|done]).
Qed.

(** The loop requests every broker of the dict, in the dict's order,
    whichever requests fail. *)
Lemma report_configs_requests a (meta : ClusterMetadata) (m : Machine World) :
  describe_answers_or_fails env ->
  fst (report_configs env (Some a) (Some meta) m) = Return tt /\
  requested_brokers (events_of (report_configs env (Some a) (Some meta)) m)
    = map (fun b => str_int (id b)) (values (brokers meta)).
Proof.
  intros Hd. unfold report_configs, events_of.
  generalize (values (brokers meta)) as l.
  assert (G : forall l (m : Machine World),
             fst (for_each l (describe_broker env a) m) = Return tt /\
             exists es, trace (snd (for_each l (describe_broker env a) m))
                        = (trace m ++ es)%list /\
                        requested_brokers es = map (fun b => str_int (id b)) l).
  { induction l as [|b l IH]; intros m0; simpl.
    - split; [done|]. exists []. by rewrite app_nil_r.
    - destruct (describe_broker_run a b m0 Hd) as (e & He & Hk).
      unfold bind. rewrite He.
      destruct (IH {| sess := sess m0;
                      world := snd (describe_configs env a
                                      {| restype := BROKER; resname := str_int (id b) |}
                                      (world m0));
                      trace := trace m0 ++
                        [Call (CallDescribeConfigs a
                                 {| restype := BROKER; resname := str_int (id b) |}); e]
                   |}) as (Hr & es & Ht & Hq).
      split; [exact Hr|].
      exists ([Call (CallDescribeConfigs a
                       {| restype := BROKER; resname := str_int (id b) |}); e] ++ es)%list.
      rewrite Ht. simpl trace. rewrite <- app_assoc. split; [done|].
      rewrite requested_brokers_app, Hq.
      assert (He' : requested_brokers [e] = []).
      { destruct (fst (describe_configs env a _ (world m0))); by subst e. }
      change [Call (CallDescribeConfigs a
                      {| restype := BROKER; resname := str_int (id b) |}); e]
        with ([Call (CallDescribeConfigs a
                       {| restype := BROKER; resname := str_int (id b) |})] ++ [e])%list.
      by rewrite requested_brokers_app, He'. }
  intros l. destruct (G l m) as (Hr & es & Ht & Hq).
  split; [exact Hr|]. by rewrite Ht, app_events.
Qed.

(** *** The table layout *)

Lemma length_append (s t : string) :
  String.length (s +:+ t) = (String.length s + String.length t)%nat.
Proof. induction s as [|a s IH]; simpl; [done|]. by rewrite IH. Qed.

Lemma length_str_times c n : String.length (str_times c n) = n.
Proof. induction n as [|n IH]; simpl; [done|]. by rewrite IH. Qed.

Lemma length_ljust s w : String.length (ljust s w) = Nat.max (String.length s) w.
Proof. unfold ljust. rewrite length_append, length_str_times. lia. Qed.

Lemma length_join sep (l : list string) :
  String.length (String.concat sep l)
  = joined_length (String.length sep) (map String.length l).
Proof.
  induction l as [|x [|y l] IH]; simpl in *; try done.
  rewrite !length_append. rewrite IH. lia.
Qed.

(** [collect] returns when every element does, in order. *)
Lemma collect_Return {A B} (f : A -> outcome B) l ys :
  collect f l = Return ys <-> Forall2 (fun x y => f x = Return y) l ys.
Proof.
  revert ys. induction l as [|x l IH]; intros ys; simpl.
  - split; [intros [= <-]; constructor|intros H; by inversion H].
  - destruct (f x) as [y|e] eqn:E.
    + destruct (collect f l) as [ys'|e] eqn:E'.
      * split.
        -- intros [= <-]. constructor; [done|]. by apply IH.
        -- intros H. inversion H as [|? y0 ? ys0 Hy Hys]; subst.
           apply IH in Hys. congruence.
      * split; [done|]. intros H. inversion H as [|? y0 ? ys0 Hy Hys]; subst.
        apply IH in Hys. discriminate.
    + split; [done|]. intros H. inversion H; congruence.
Qed.

Lemma py_max_Return l m :
  py_max l = Return m -> Forall (fun x => (x <= m)%nat) l.
Proof.
  destruct l as [|x l]; [done|]. simpl. intros [= <-].
  assert (G : forall l a, (a <= fold_left Nat.max l a)%nat /\
                          Forall (fun x => (x <= fold_left Nat.max l a)%nat) l).
  { clear. induction l as [|y l IH]; intros a; simpl; [by split|].
    destruct (IH (Nat.max a y)) as [H1 H2]. split; [lia|].
    constructor; [lia|done]. }
  destruct (G l x). by constructor.
Qed.

Lemma nth_error_is_lookup {A} (l : list A) i : nth_error l i = l !! i.
Proof. revert i. induction l as [|x l IH]; intros [|i]; simpl; auto. Qed.

Lemma width_Return rows i w :
  width rows i = Return w ->
  Forall (fun row => exists c, row !! i = Some c /\ (String.length c <= w)%nat) rows.
Proof.
  unfold width. destruct (collect _ rows) as [lens|e] eqn:E; [|done].
  intros Hm. apply py_max_Return in Hm. apply collect_Return in E.
  revert Hm. induction E as [|row len rows lens Hr _ IH]; intros Hm; [constructor|].
  inversion Hm; subst. constructor; [|by apply IH].
  unfold py_index in Hr. rewrite nth_error_is_lookup in Hr.
  destruct (row !! i) as [c|]; [|done]. injection Hr as <-. by exists c.
Qed.

(** When the widths are computed, every line fits them, cell by cell. *)
Lemma widths_fit (rows : list (list string)) n ws :
  collect (width rows) (seq 0 n) = Return ws ->
  Forall (fun row => Forall2 (fun c w => (String.length c <= w)%nat) (take n row) ws) rows.
Proof.
  intros H. apply collect_Return in H.
  assert (Hn : length ws = n).
  { apply Forall2_length in H. by rewrite length_seq in H. }
  assert (Hi : forall i w, ws !! i = Some w -> width rows i = Return w).
  { intros i w Hw.
    assert (Hlt : (i < n)%nat) by (rewrite <- Hn; by eapply lookup_lt_Some).
    destruct (Forall2_lookup_l _ _ _ i i H) as (w' & Hw' & Hwi).
    { by rewrite lookup_seq_lt. }
    congruence. }
  apply Forall_forall. intros row Hrow.
  assert (Hc : forall i w, ws !! i = Some w ->
                           exists c, row !! i = Some c /\ (String.length c <= w)%nat).
  { intros i w Hw. apply Hi, width_Return in Hw.
    rewrite Forall_forall in Hw. by apply Hw. }
  apply Forall2_same_length_lookup_2.
  - rewrite length_take, Hn.
    destruct n as [|n]; [lia|].
    destruct (lookup_lt_is_Some_2 ws n) as [w Hw]; [lia|].
    destruct (Hc n w Hw) as (c & Hcn & _).
    apply lookup_lt_Some in Hcn. lia.
  - intros i c w Hci Hwi.
    assert (Hlt : (i < n)%nat) by (rewrite <- Hn; by eapply lookup_lt_Some).
    rewrite lookup_take_lt in Hci by done.
    destruct (Hc i w Hwi) as (c' & Hc' & Hle). congruence.
Qed.

Lemma lengths_ljust (row : list string) ws :
  Forall2 (fun c w => (String.length c <= w)%nat) row ws ->
  map String.length (zip_with ljust row ws) = ws.
Proof.
  induction 1 as [|c w row ws Hle _ IH]; simpl; [done|].
  rewrite length_ljust, IH. f_equal. lia.
Qed.

Lemma zip_with_take_fit {A B C} (f : A -> B -> C) l k :
  zip_with f l k = zip_with f (take (length k) l) k.
Proof.
  revert k. induction l as [|x l IH]; intros [|y k]; simpl; try done.
  by rewrite <- IH.
Qed.

(** A line that fits the widths has the length the widths give. *)
Lemma length_format_row ws (row : list string) :
  Forall2 (fun c w => (String.length c <= w)%nat) (take (length ws) row) ws ->
  String.length (format_row ws row) = (3 + joined_length 2 ws)%nat.
Proof.
  intros H. unfold format_row. rewrite length_append, length_join.
  rewrite zip_with_take_fit, (lengths_ljust _ _ H). done.
Qed.

(** X23. Whenever [tprint] prints, its lines have one and the same
    length: the columns are aligned, whatever the cells hold. *)
Theorem tprint_lines_aligned {V} (str : V -> string) rows lines :
  tprint_lines str rows = Return lines ->
  exists n, Forall (fun line => String.length line = n) lines.
Proof.
  unfold tprint_lines. destruct rows as [|r rows]; [done|].
  destruct (expand_rows str (r :: rows)) as [[|header body]|e]; try done.
  destruct (collect _ (seq 0 (length header))) as [ws|e] eqn:E; [|done].
  intros [= <-]. exists (3 + joined_length 2 ws)%nat.
  pose proof (widths_fit _ _ _ E) as Hfit.
  assert (Hn : length ws = length header).
  { apply collect_Return, Forall2_length in E. by rewrite length_seq in E. }
  rewrite <- Hn in Hfit.
  inversion Hfit as [|? ? Hh Hb]; subst.
  cbn [map]. constructor; [by apply length_format_row|].
  constructor.
  - apply length_format_row.
    rewrite Hn. rewrite take_ge by (rewrite List.length_map; lia).
    rewrite Hn, take_ge in Hh by lia.
    clear -Hh. induction Hh as [|c w row ws' Hle _ IH]; simpl; constructor; [|done].
    by rewrite length_str_times.
  - apply List.Forall_map. eapply Forall_impl; [exact Hb|].
    intros row Hrow. by apply length_format_row.
Qed.

Lemma collect_total {A B} (f : A -> outcome B) l :
  Forall (fun x => exists y, f x = Return y) l -> exists ys, collect f l = Return ys.
Proof.
  induction 1 as [|x l [y Hy] _ [ys IH]]; simpl; [by exists []|].
  rewrite Hy, IH. by eexists.
Qed.

Lemma fold_left_max l a :
  fold_left Nat.max l a = Nat.max a (fold_right Nat.max 0%nat l).
Proof.
  revert a. induction l as [|x l IH]; intros a; simpl; [lia|].
  rewrite IH. lia.
Qed.

(** A row with at least one cell turns into [height] lines, each with one
    string per cell. *)
Lemma expand_row_Return {V} (str : V -> string) (row : list (tcell V)) :
  row <> [] ->
  exists ls, expand_row str row = Return ls /\
             length ls = height str row /\
             Forall (fun l => length l = length row) ls.
Proof.
  intros Hne. unfold expand_row, height.
  destruct row as [|c row]; [done|]. cbn [map py_max].
  eexists. split; [reflexivity|]. split.
  - rewrite List.length_map, length_seq, fold_left_max. done.
  - apply List.Forall_map, Forall_forall. intros i _.
    simpl. by rewrite !List.length_map.
Qed.

Lemma expand_rows_Return {V} (str : V -> string) (rows : list (list (tcell V))) k :
  Forall (fun row => length row = k) rows -> (0 < k)%nat ->
  exists ls, expand_rows str rows = Return ls /\
             length ls = list_sum (map (height str) rows) /\
             Forall (fun l => length l = k) ls.
Proof.
  intros Hk Hpos. unfold expand_rows.
  induction Hk as [|row rows Hrow _ IH]; simpl.
  - exists []. by repeat split.
  - destruct (expand_row_Return str row) as (ls & -> & Hl & Hc).
    { intros ->. simpl in Hrow. lia. }
    destruct IH as (ls' & IH & Hl' & Hc').
    destruct (collect (expand_row str) rows) as [groups|e]; [|done].
    injection IH as <-.
    eexists. split; [reflexivity|]. simpl. split.
    + rewrite length_app. lia.
    + apply Forall_app. split; [|done]. by rewrite <- Hrow.
Qed.

Lemma widths_total (rows : list (list string)) k :
  rows <> [] -> Forall (fun l => length l = k) rows ->
  exists ws, collect (width rows) (seq 0 k) = Return ws.
Proof.
  intros Hne Hk. apply collect_total, Forall_forall. intros i Hi.
  apply elem_of_seq in Hi as [_ Hi]. simpl in Hi.
  unfold width.
  destruct (collect_total (fun row => match py_index row i with
                                      | Raise e => Raise e
                                      | Return c => Return (String.length c)
                                      end) rows) as [lens Hl].
  { eapply Forall_impl; [exact Hk|]. intros row Hrow. unfold py_index.
    rewrite nth_error_is_lookup. simpl in Hrow.
    destruct (lookup_lt_is_Some_2 row i) as [c ->]; [lia|]. by eexists. }
  rewrite Hl. destruct lens as [|x lens]; [|by eexists].
  apply collect_Return in Hl. inversion Hl; by subst.
Qed.

Lemma tprint_lines_regular {V} (str : V -> string) (rows : list (list (tcell V))) k :
  rows <> [] -> (0 < k)%nat -> Forall (fun row => length row = k) rows ->
  list_sum (map (height str) rows) <> 0%nat ->
  exists lines, tprint_lines str rows = Return lines /\
                length lines = S (list_sum (map (height str) rows)).
Proof.
  intros Hne Hpos Hk Ht. unfold tprint_lines.
  destruct rows as [|r rows]; [done|].
  destruct (expand_rows_Return str (r :: rows) k Hk Hpos) as (ls & -> & Hl & Hc).
  destruct ls as [|header body]; [by rewrite <- Hl in Ht|].
  destruct (widths_total (header :: body) k) as [ws Hws]; [done|done|].
  inversion Hc; subst. rewrite Hws. eexists. split; [reflexivity|].
  rewrite <- Hl. simpl. by rewrite List.length_map.
Qed.

(** X24. A table whose rows all have the same positive number of cells:
    [tprint] raises only when no row has anything to show, and otherwise
    prints one line per shown line of a row, plus the line of dashes. *)
Theorem tprint_lines_count {V} (str : V -> string) (rows : list (list (tcell V))) k :
  rows <> [] -> (0 < k)%nat -> Forall (fun row => length row = k) rows ->
  let total := list_sum (map (height str) rows) in
  (total = 0%nat ->
   tprint_lines str rows = Raise (PyException "IndexError" "list index out of range")) /\
  (total <> 0%nat ->
   exists lines, tprint_lines str rows = Return lines /\ length lines = S total).
Proof.
  intros Hne Hpos Hk total. split; intros Ht.
  - unfold tprint_lines. destruct rows as [|r rows]; [done|].
    destruct (expand_rows_Return str (r :: rows) k Hk Hpos) as (ls & -> & Hl & Hc).
    fold total in Hl. destruct ls; [done|]. rewrite Ht in Hl. done.
  - by apply tprint_lines_regular with k.
Qed.

(** Rows of cells that are not lists show one line each. *)
Lemma height_plain str (row : list cell) :
  row <> [] -> Forall plain row -> height str (map layout_cell row) = 1%nat.
Proof.
  intros Hne Hp. unfold height.
  destruct Hp as [|c row Hc Hp]; [done|]. clear Hne.
  assert (H1 : forall c, plain c -> length (column str (layout_cell c)) = 1%nat).
  { intros [| |[]]; simpl; done. }
  simpl. rewrite (H1 c Hc).
  induction Hp as [|c' row Hc' _ IH]; simpl; [done|].
  rewrite (H1 c' Hc'). lia.
Qed.

Lemma height_plain_first str (c : cell) (row : list cell) :
  plain c -> (1 <= height str (map layout_cell (c :: row)))%nat.
Proof.
  intros Hc. unfold height. simpl.
  assert (H1 : length (column str (layout_cell c)) = 1%nat).
  { destruct c as [| |[]]; simpl; done. }
  rewrite H1. lia.
Qed.

Lemma heights_plain str (rows : list (list cell)) :
  Forall (fun row => row <> [] /\ Forall plain row) rows ->
  list_sum (map (height str) (layout rows)) = length rows.
Proof.
  induction 1 as [|row rows [Hne Hp] _ IH]; simpl; [done|].
  rewrite height_plain by done. by rewrite IH.
Qed.

Lemma heights_plain_first str (rows : list (list cell)) :
  Forall (fun row => exists c rest, row = c :: rest /\ plain c) rows ->
  (length rows <= list_sum (map (height str) (layout rows)))%nat.
Proof.
  induction 1 as [|row rows (c & rest & -> & Hc) _ IH]; simpl; [done|].
  pose proof (height_plain_first str c rest Hc). simpl in *. lia.
Qed.

(** X25. None of the tables the script prints makes [tprint] raise: the
    help table, the broker table of any snapshot, the configuration table
    of any fetch result and the table of any configuration are printed,
    the first three with one line per row plus the line of dashes. *)
Theorem script_tables_print (str : cell -> string) :
  (exists lines, tprint_lines str (layout help_rows) = Return lines /\
                 length lines = 8%nat) /\
  (forall bs : list BrokerMetadata,
      exists lines,
        tprint_lines str (layout ([CStr "ID"; CStr "Host"; CStr "Port"]
                                    :: map broker_row bs)) = Return lines /\
        length lines = (2 + length bs)%nat) /\
  (forall entries : gmap string ConfigEntry,
      exists lines,
        tprint_lines str (layout (config_header :: entry_rows entries)) = Return lines /\
        length lines = (2 + length (entry_rows entries))%nat) /\
  (forall config : gmap string json,
      exists lines,
        tprint_lines str (layout ([CStr "Key"; CStr "Value"] :: config_rows config))
          = Return lines /\
        (2 + size config <= length lines)%nat).
Proof.
  split; [|split; [|split]].
  - destruct (tprint_lines_regular str (layout help_rows) 2) as (lines & Hl & Hn).
    + done.
    + lia.
    + repeat constructor.
    + done.
    + exists lines. split; [done|]. rewrite Hn. reflexivity.
  - intros bs.
    assert (Hp : Forall (fun row => row <> [] /\ Forall plain row)
                        ([CStr "ID"; CStr "Host"; CStr "Port"] :: map broker_row bs)).
    { constructor; [split; [done|repeat constructor]|].
      apply List.Forall_map, Forall_forall. intros b _.
      split; [done|repeat constructor]. }
    destruct (tprint_lines_regular str
                (layout ([CStr "ID"; CStr "Host"; CStr "Port"] :: map broker_row bs)) 3)
      as (lines & Hl & Hn).
    + done.
    + lia.
    + unfold layout. cbn [map]. constructor; [done|].
      apply List.Forall_map, List.Forall_map, Forall_forall. by intros b _.
    + rewrite heights_plain by done. done.
    + exists lines. split; [done|]. rewrite Hn, heights_plain by done.
      simpl. by rewrite List.length_map.
  - intros entries.
    assert (Hp : Forall (fun row => row <> [] /\ Forall plain row)
                        (config_header :: entry_rows entries)).
    { constructor; [split; [done|repeat constructor]|].
      apply List.Forall_map, Forall_forall. intros ke _.
      split; [done|repeat constructor]. }
    destruct (tprint_lines_regular str (layout (config_header :: entry_rows entries)) 5)
      as (lines & Hl & Hn).
    + done.
    + lia.
    + unfold layout, entry_rows. cbn [map]. constructor; [done|].
      apply List.Forall_map, List.Forall_map, Forall_forall. by intros ke _.
    + rewrite heights_plain by done. done.
    + exists lines. split; [done|]. by rewrite Hn, heights_plain.
  - intros config.
    assert (Hp : Forall (fun row => exists c rest, row = c :: rest /\ plain c)
                        (config_rows config)).
    { apply List.Forall_map, Forall_forall. intros kv _. by eexists _, _. }
    pose proof (heights_plain_first str _ Hp) as Hge.
    assert (Hlen : length (config_rows config) = size config).
    { unfold config_rows, item_rows. by rewrite List.length_map, length_map_to_list. }
    assert (Hsum : list_sum (map (height str)
                     (layout ([CStr "Key"; CStr "Value"] :: config_rows config)))
                   = S (list_sum (map (height str) (layout (config_rows config)))))
      by reflexivity.
    destruct (tprint_lines_regular str
                (layout ([CStr "Key"; CStr "Value"] :: config_rows config)) 2)
      as (lines & Hl & Hn).
    + done.
    + lia.
    + unfold layout, config_rows, item_rows. cbn [map]. constructor; [done|].
      apply List.Forall_map, List.Forall_map, Forall_forall. by intros kv _.
    + rewrite Hsum. lia.
    + exists lines. split; [done|]. rewrite Hn, Hsum. lia.
Qed.

Lemma collect_Raise {A B} (f : A -> outcome B) l e E :
  (forall x e, f x = Raise e -> e = E) -> collect f l = Raise e -> e = E.
Proof.
  intros Hf. induction l as [|x l IH]; simpl; [done|].
  destruct (f x) as [y|e'] eqn:Ex.
  - destruct (collect f l) as [ys|e'']; [done|]. intros [= <-]. by apply IH.
  - intros [= <-]. by eapply Hf.
Qed.

Lemma width_Raise rows i e :
  rows <> [] -> width rows i = Raise e ->
  e = PyException "IndexError" "list index out of range".
Proof.
  intros Hne. unfold width.
  destruct (collect _ rows) as [lens|e'] eqn:E.
  - apply collect_Return, Forall2_length in E.
    destruct lens; [by destruct rows|done].
  - intros [= <-]. revert E. apply collect_Raise.
    intros row e2. unfold py_index. destruct (nth_error row i); [done|].
    by intros [= <-].
Qed.

Lemma expand_rows_empty_row {V} (str : V -> string) (rows : list (list (tcell V))) :
  In [] rows ->
  expand_rows str rows = Raise (PyException "ValueError" "max() arg is an empty sequence").
Proof.
  unfold expand_rows. induction rows as [|row rows IH]; simpl; [done|].
  intros [->|Hin]; [done|].
  destruct (decide (row = [])) as [->|Hne]; [done|].
  destruct (expand_row_Return str row Hne) as (ls & -> & _).
  specialize (IH Hin). by destruct (collect (expand_row str) rows).
Qed.

Lemma expand_rows_groups {V} (str : V -> string) (rows : list (list (tcell V))) :
  Forall (fun row => row <> []) rows ->
  exists groups,
    expand_rows str rows = Return (concat groups) /\
    Forall2 (fun row g => length g = height str row /\
                          Forall (fun l => length l = length row) g) rows groups.
Proof.
  unfold expand_rows. induction 1 as [|row rows Hne _ (groups & IH & Hg)]; simpl.
  - by exists [].
  - destruct (expand_row_Return str row Hne) as (ls & -> & Hl & Hc).
    destruct (collect (expand_row str) rows) as [groups'|e]; [|done].
    injection IH as IH. exists (ls :: groups). simpl. rewrite IH.
    split; [done|]. by constructor.
Qed.

(** X26. What makes [tprint] raise, before it has printed anything: no
    row at all ([IndexError]), a row without cells ([ValueError]), or a
    row that shows something and has fewer cells than the first row
    ([IndexError]). *)
Theorem tprint_lines_raises {V} (str : V -> string) :
  tprint_lines str [] = Raise (PyException "IndexError" "tuple index out of range") /\
  (forall rows, In [] rows ->
     exists msg, tprint_lines str rows = Raise (PyException "ValueError" msg)) /\
  (forall first rest,
     Forall (fun row => row <> []) (first :: rest) ->
     (0 < height str first)%nat ->
     Exists (fun row => (length row < length first)%nat /\ (0 < height str row)%nat) rest ->
     tprint_lines str (first :: rest)
       = Raise (PyException "IndexError" "list index out of range")).
Proof.
  split; [done|]. split.
  - intros rows Hin. unfold tprint_lines.
    destruct rows as [|r rows]; [done|].
    rewrite (expand_rows_empty_row str (r :: rows) Hin). by eexists.
  - intros first rest Hne Hh Hshort. unfold tprint_lines.
    destruct (expand_rows_groups str (first :: rest) Hne) as (groups & -> & Hg).
    inversion Hg as [|? g1 ? gs [Hl1 Hc1] Hgs]; subst.
    destruct g1 as [|header g1]; [simpl in Hl1; lia|].
    inversion Hc1 as [|? ? Hhead _]; subst. cbn [concat app].
    assert (Hbody : exists l, In l (g1 ++ concat gs) /\ (length l < length header)%nat).
    { clear -Hshort Hgs Hhead. rewrite Hhead.
      induction Hgs as [|row g rest gs [Hl Hc] _ IH].
      - inversion Hshort.
      - inversion Hshort as [? ? [Hlt Hpos]|? ? Hex]; subst.
        + destruct g as [|l g]; [simpl in Hl; lia|].
          inversion Hc; subst. exists l. split; [|lia].
          apply in_or_app. right. simpl. by left.
        + destruct (IH Hex) as (l & Hin & Hlt). exists l. split; [|done].
          apply in_app_or in Hin as [Hin|Hin]; apply in_or_app; [by left|].
          right. simpl. apply in_or_app. by right. }
    destruct Hbody as (l & Hin & Hlt).
    destruct (collect _ (seq 0 (length header))) as [ws|e] eqn:E.
    + exfalso. pose proof (widths_fit _ _ _ E) as Hfit.
      assert (Hn : length ws = length header).
      { apply collect_Return, Forall2_length in E. by rewrite length_seq in E. }
      inversion Hfit as [|? ? _ Hb]; subst.
      rewrite Forall_forall in Hb.
      apply list_elem_of_In, Hb, Forall2_length in Hin.
      rewrite length_take in Hin. lia.
    + f_equal. revert E. apply collect_Raise. intros i e'. by apply width_Raise.
Qed.

(** *** More on the configuration store *)

Lemma exec_load_session (fpath : string) (m : Machine World) :
  sess (snd (exec_load env fpath m)) = sess m \/
  exists new, fst (json_load env fpath (world m)) = Return (JDict new) /\
              sess (snd (exec_load env fpath m))
              = State.with_config (new ∪ State.config (sess m)) (sess m).
Proof.
  destruct (json_load env fpath (world m)) as [[v|e] w] eqn:E.
  - destruct (isinstance_dict v) eqn:Hv.
    + destruct v; try discriminate Hv. right. exists d. split; [done|].
      unfold exec_load, try_except_Exception, bind, outside, print, emit, ret,
        get_config, set_config, get_S, put_S, print_config, tprint, emit.
      rewrite E. simpl. by destruct (decide (d = ∅)).
    + left. by rewrite (exec_load_not_object fpath m v w E Hv).
  - left. by rewrite (exec_load_raised fpath m e w E).
Qed.

(** X1. Whatever the file holds and whatever the store holds, also when
    it is empty, [exec_load] leaves the handles and the label alone and
    removes no configuration key. *)
Theorem exec_load_only_adds (fpath : string) (m : Machine World) :
  let s' := sess (snd (exec_load env fpath m)) in
  (forall k : string,
      is_Some (State.config (sess m) !! k) -> is_Some (State.config s' !! k)) /\
  State.admin s' = State.admin (sess m) /\
  State.consumer s' = State.consumer (sess m) /\
  State.broker s' = State.broker (sess m).
Proof.
  intros s'. subst s'.
  destruct (exec_load_session fpath m) as [->|(new & _ & ->)]; [done|].
  simpl. split; [|done].
  intros k Hk. rewrite lookup_union_is_Some. by right.
Qed.

(** X2. Loading the same document twice in a row gives the store that
    loading it once gives. *)
Theorem exec_load_twice (fpath : string) (m : Machine World) new :
  let m1 := snd (exec_load env fpath m) in
  fst (json_load env fpath (world m)) = Return (JDict new) ->
  fst (json_load env fpath (world m1)) = Return (JDict new) ->
  State.config (sess (snd (exec_load env fpath m1))) = State.config (sess m1).
Proof.
  intros m1 H1 H2.
  destruct (json_load env fpath (world m)) as [r w] eqn:E. simpl in H1. subst r.
  destruct (json_load env fpath (world m1)) as [r w'] eqn:E'. simpl in H2. subst r.
  destruct (exec_load_object fpath m new w E) as (_ & Hc & _).
  destruct (exec_load_object fpath m1 new w' E') as (_ & Hc' & _).
  rewrite Hc'. subst m1. rewrite Hc.
  by rewrite (assoc_L (∪)), (idemp_L (∪)).
Qed.

(** The table of a dict's items is laid out without an exception in
    whatever order the items come, with at least one line for each item
    after the header and the dashes. *)
Lemma item_rows_print (str : cell -> string) (items : list (string * json)) :
  exists lines,
    tprint_lines str (layout ([CStr "Key"; CStr "Value"] :: item_rows items))
      = Return lines /\
    (2 + length items <= length lines)%nat.
Proof.
  assert (Hp : Forall (fun row => exists c rest, row = c :: rest /\ plain c)
                      (item_rows items)).
  { apply List.Forall_map, Forall_forall. intros kv _. by eexists _, _. }
  pose proof (heights_plain_first str _ Hp) as Hge.
  assert (Hlen : length (item_rows items) = length items).
  { unfold item_rows. by rewrite List.length_map. }
  assert (Hsum : list_sum (map (height str)
                   (layout ([CStr "Key"; CStr "Value"] :: item_rows items)))
                 = S (list_sum (map (height str) (layout (item_rows items)))))
    by reflexivity.
  destruct (tprint_lines_regular str
              (layout ([CStr "Key"; CStr "Value"] :: item_rows items)) 2)
    as (lines & Hl & Hn).
  - done.
  - lia.
  - unfold layout, item_rows. cbn [map]. constructor; [done|].
    apply List.Forall_map, List.Forall_map, Forall_forall. by intros kv _.
  - rewrite Hsum. lia.
  - exists lines. split; [done|]. rewrite Hn, Hsum. lia.
Qed.

(** X3. After a successful load [exec_load] shows the document it has
    read, not the store: it hands [tprint] the items of the document, or
    prints "No configuration" for an empty object, which leaves the store
    as it was. In whatever order the items of the document come, [tprint]
    lays the table out without an exception. *)
Theorem exec_load_reports_document (fpath : string) (m : Machine World) new :
  fst (json_load env fpath (world m)) = Return (JDict new) ->
  events_of (exec_load env fpath) m =
    [Call (CallJsonLoad fpath);
     Print " (+) Loaded configuration from file:";
     Print "";
     if decide (new = ∅) then Print " (-) No configuration"
     else TprintItems [CStr "Key"; CStr "Value"] new] /\
  (new = ∅ -> State.config (sess (snd (exec_load env fpath m))) = State.config (sess m)) /\
  (forall (str : cell -> string) (items : list (string * json)),
      items ≡ₚ map_to_list new ->
      exists lines,
        tprint_lines str (layout ([CStr "Key"; CStr "Value"] :: item_rows items))
          = Return lines /\
        (2 + size new <= length lines)%nat).
Proof.
  intros H. destruct (json_load env fpath (world m)) as [r w] eqn:E.
  simpl in H. subst r. split; [|split].
  - unfold events_of, exec_load, try_except_Exception, bind, outside, print, emit, ret,
      get_config, set_config, get_S, put_S, print_config, tprint_items, emit.
    rewrite E. simpl.
    destruct (decide (new = ∅)); simpl; by rewrite <- !app_assoc, app_events.
  - intros ->. destruct (exec_load_object fpath m ∅ w E) as (_ & -> & _).
    by rewrite (left_id_L ∅ (∪)).
  - intros str items Hperm.
    destruct (item_rows_print str items) as (lines & Hl & Hn).
    exists lines. split; [exact Hl|].
    by rewrite <- (length_map_to_list new), <- Hperm.
Qed.

(** *** More on connection handling *)

(** X4. A list of bootstrap addresses with at least one element resolves
    to one of its elements, after one random draw and without touching the
    session; any other value resolves to itself without a draw. *)
Theorem resolve_bootstrap_candidate (v : json) (m : Machine World) :
  (forall seq, v = JList seq -> seq <> [] ->
     exists b, fst (resolve_bootstrap env v m) = Return b /\ In b seq /\
               sess (snd (resolve_bootstrap env v m)) = sess m /\
               events_of (resolve_bootstrap env v) m = [Call (CallRandomChoice seq)]) /\
  (isinstance_list v = false -> resolve_bootstrap env v m = (Return v, m)).
Proof.
  split.
  - intros seq -> Hne. destruct seq as [|x seq]; [done|].
    unfold events_of, resolve_bootstrap, random_choice, bind, outside, ret.
    destruct (randbelow env (length (x :: seq)) (world m)) as [i w].
    cbn [fst snd sess trace].
    eexists. split; [reflexivity|]. split; [|split; [done|by rewrite app_events]].
    apply (nth_In (x :: seq)). apply Nat.mod_upper_bound. done.
  - by destruct v.
Qed.

Lemma resolve_bootstrap_emits P v :
  (forall seq, P (Call (CallRandomChoice seq))) ->
  emits_only P (resolve_bootstrap env v).
Proof.
  intros HP. destruct v; simpl; try apply emits_ret.
  unfold random_choice. destruct l; emits. apply HP.
Qed.

Lemma instantiate_emits_confs config b :
  emits_only (client_conf_is config b)
    (instantiate_admin env config b ;; print "" ;; instantiate_consumer env config b).
Proof.
  unfold instantiate_admin, instantiate_consumer. emits; done.
Qed.

Lemma default_group_id_events (m : Machine World) :
  exists es0, trace (snd (default_group_id env m)) = (trace m ++ es0)%list /\
              forall c b, Forall (client_conf_is c b) es0.
Proof.
  destruct (decide (State.config (sess m) !! "group.id" = None)) as [Hg|Hg].
  - rewrite (default_group_id_absent m Hg). simpl. eexists. split; [done|].
    intros c b. repeat constructor.
  - rewrite (default_group_id_present m Hg). exists []. split; [by rewrite app_nil_r|].
    intros c b. constructor.
Qed.

Lemma connect_clients_raised (m m2 : Machine World) v e :
  State.config (sess m) !! "bootstrap.servers" = Some v ->
  resolve_bootstrap env v m = (Raise e, m2) ->
  connect_clients env m = (Raise e, m2).
Proof.
  intros Hv Hr. unfold connect_clients, get_config, get_S, bind at 1 2, ret. simpl.
  rewrite Hv. unfold bind at 1. by rewrite Hr.
Qed.

Lemma connect_clients_confs (m : Machine World) :
  exists b es, trace (snd (connect_clients env m)) = (trace m ++ es)%list /\
               Forall (client_conf_is (State.config (sess m)) b) es.
Proof.
  destruct (State.config (sess m) !! "bootstrap.servers") as [v|] eqn:Hv.
  - destruct (resolve_bootstrap env v m) as [[b|e] m2] eqn:Hr.
    + destruct (connect_clients_resolved m m2 v b Hv Hr) as [_ ->].
      destruct (resolve_bootstrap_emits (client_conf_is (State.config (sess m)) b) v
                  (fun _ => I) m) as (er & Her & HPer).
      rewrite Hr in Her. simpl in Her.
      destruct (instantiate_emits_confs (State.config (sess m)) b m2)
        as (es2 & He2 & HP2).
      exists b, (er ++ es2)%list. rewrite He2, Her, app_assoc. split; [done|].
      by apply Forall_app.
    + rewrite (connect_clients_raised m m2 v e Hv Hr).
      destruct (resolve_bootstrap_emits (client_conf_is (State.config (sess m)) JNull) v
                  (fun _ => I) m) as (er & Her & HPer).
      rewrite Hr in Her. by exists JNull, er.
  - exists JNull, [Print " (-) Bootstrap server not configured"].
    unfold connect_clients, get_config, get_S, bind, ret, print, emit. simpl.
    rewrite Hv. simpl. split; [done|]. by repeat constructor.
Qed.

(** The events of [exec_connect]: every client construction gets the
    configuration made from the session's mapping, as the call leaves it,
    and one address. *)
Lemma exec_connect_confs (m : Machine World) :
  exists b, Forall (client_conf_is (State.config (sess (snd (exec_connect env m)))) b)
                   (events_of (exec_connect env) m).
Proof.
  unfold events_of. rewrite exec_connect_after_default.
  rewrite keeps_config_connect_clients.
  destruct (default_group_id_events m) as (es0 & He0 & HP0).
  destruct (connect_clients_confs (snd (default_group_id env m))) as (b & es & He & HP).
  exists b. rewrite He, He0, <- app_assoc, app_events.
  apply Forall_app. split; [apply HP0|exact HP].
Qed.

Lemma admin_conf_lookup config b k :
  admin_conf config b !! k =
    if decide (k = "bootstrap.servers") then Some b
    else if tuple_in k admin_keys then config !! k else None.
Proof.
  unfold admin_conf. destruct (decide (k = "bootstrap.servers")) as [->|Hk].
  - by rewrite lookup_insert_eq.
  - rewrite lookup_insert_ne by done.
    destruct (tuple_in k admin_keys) eqn:Hin.
    + destruct (config !! k) as [x|] eqn:Hc.
      * by apply map_lookup_filter_Some.
      * apply map_lookup_filter_None. left. done.
    + apply map_lookup_filter_None. right. intros x _. cbn [fst]. by rewrite Hin.
Qed.

(** What [resolve_bootstrap] returns is an address the configured value
    stands for. *)
Lemma resolve_bootstrap_returns (v b : json) (m m2 : Machine World) :
  resolve_bootstrap env v m = (Return b, m2) -> candidate v b.
Proof.
  unfold resolve_bootstrap, ret. destruct v; try (by intros [= <- _]).
  unfold candidate, random_choice. destruct l as [|x seq]; [done|].
  unfold bind, outside, ret.
  destruct (randbelow env (length (x :: seq)) (world m)) as [i w].
  intros H.
  assert (Hb : b = nth (i mod length (x :: seq)) (x :: seq) x) by congruence.
  rewrite Hb. apply (nth_In (x :: seq)). apply Nat.mod_upper_bound. done.
Qed.

Lemma default_group_id_no_admin (m : Machine World) :
  exists es0, trace (snd (default_group_id env m)) = (trace m ++ es0)%list /\
              Forall not_admin_construction es0.
Proof.
  destruct (decide (State.config (sess m) !! "group.id" = None)) as [Hg|Hg].
  - rewrite (default_group_id_absent m Hg). simpl. eexists. split; [done|].
    repeat constructor.
  - rewrite (default_group_id_present m Hg). exists []. split; [by rewrite app_nil_r|].
    constructor.
Qed.

(** An admin construction among the events of [connect_clients] was made
    for an address the configured bootstrap value stands for. *)
Lemma connect_clients_admin_conf (m : Machine World) conf :
  In (Call (CallAdminClient conf)) (events_of (connect_clients env) m) ->
  exists v b, State.config (sess m) !! "bootstrap.servers" = Some v /\
              candidate v b /\
              conf = admin_conf (State.config (sess m)) b.
Proof.
  unfold events_of.
  destruct (State.config (sess m) !! "bootstrap.servers") as [v|] eqn:Hv.
  - destruct (resolve_bootstrap_emits not_admin_construction v (fun _ => I) m)
      as (er & Her & HPer).
    destruct (resolve_bootstrap env v m) as [[b|e] m2] eqn:Hr; simpl in Her.
    + destruct (connect_clients_resolved m m2 v b Hv Hr) as [_ ->].
      destruct (instantiate_emits_confs (State.config (sess m)) b m2)
        as (es2 & He2 & HP2).
      rewrite He2, Her, <- app_assoc, app_events.
      intros [Hin|Hin]%in_app_or.
      * rewrite Forall_forall in HPer. by apply list_elem_of_In, HPer in Hin.
      * rewrite Forall_forall in HP2. apply list_elem_of_In, HP2 in Hin.
        exists v, b. split; [done|]. split; [|exact Hin].
        by apply (resolve_bootstrap_returns v b m m2).
    + rewrite (connect_clients_raised m m2 v e Hv Hr). cbn [snd].
      rewrite Her, app_events.
      intros Hin. rewrite Forall_forall in HPer.
      by apply list_elem_of_In, HPer in Hin.
  - unfold connect_clients, get_config, get_S, bind, ret, print, emit. simpl.
    rewrite Hv. simpl. rewrite app_events. by intros [[=]|[]].
Qed.

(** X5. The admin client is constructed from the bootstrap address and
    the four security settings only. The address it gets is one the
    configured bootstrap value stands for: that value itself, or an
    element of it when it is a list. No other key of the configuration,
    the group id included, reaches it, and the four settings reach it with
    the configured values. *)
Theorem admin_client_gets_security_settings_only (m : Machine World) conf :
  In (Call (CallAdminClient conf)) (events_of (exec_connect env) m) ->
  let config := State.config (sess (snd (exec_connect env m))) in
  (exists v b : json,
      State.config (sess m) !! "bootstrap.servers" = Some v /\
      config !! "bootstrap.servers" = Some v /\
      candidate v b /\
      conf !! "bootstrap.servers" = Some b) /\
  conf !! "group.id" = None /\
  (forall k, is_Some (conf !! k) -> k = "bootstrap.servers" \/ In k admin_keys) /\
  (forall k, In k admin_keys -> conf !! k = config !! k).
Proof.
  intros Hin config.
  set (m0 := snd (default_group_id env m)).
  assert (Hcfg : config = State.config (sess m0)).
  { subst config m0. by rewrite exec_connect_after_default, keeps_config_connect_clients. }
  assert (Hb0 : State.config (sess m0) !! "bootstrap.servers"
                = State.config (sess m) !! "bootstrap.servers").
  { subst m0.
    destruct (decide (State.config (sess m) !! "group.id" = None)) as [Hg|Hg].
    - rewrite (default_group_id_absent m Hg). simpl. by rewrite lookup_insert_ne.
    - by rewrite (default_group_id_present m Hg). }
  assert (Hin0 : In (Call (CallAdminClient conf)) (events_of (connect_clients env) m0)).
  { unfold events_of in Hin. rewrite exec_connect_after_default in Hin. fold m0 in Hin.
    destruct (default_group_id_no_admin m) as (es0 & He0 & HP0). fold m0 in He0.
    destruct (connect_clients_draws_no_uuid m0) as (es & He & _).
    unfold events_of. rewrite He, app_events.
    rewrite He, He0, <- app_assoc, app_events in Hin.
    apply in_app_or in Hin as [Hin|Hin]; [|exact Hin].
    rewrite Forall_forall in HP0. by apply list_elem_of_In, HP0 in Hin. }
  destruct (connect_clients_admin_conf m0 conf Hin0) as (v & b & Hv & Hcand & ->).
  rewrite <- Hcfg in *. split; [|split; [|split]].
  - exists v, b. split; [by rewrite <- Hb0|]. split; [exact Hv|]. split; [exact Hcand|].
    by rewrite admin_conf_lookup.
  - by rewrite admin_conf_lookup.
  - intros k. rewrite admin_conf_lookup.
    destruct (decide (k = "bootstrap.servers")); [by left|].
    destruct (tuple_in k admin_keys) eqn:Hk; [|by intros [? [=]]].
    intros _. right. unfold tuple_in in Hk. apply existsb_exists in Hk as (x & Hx & Heq).
    apply String.eqb_eq in Heq. by subst.
  - intros k Hk. rewrite admin_conf_lookup.
    destruct (decide (k = "bootstrap.servers")) as [->|_].
    { simpl in Hk. by repeat destruct Hk as [Hk|Hk]. }
    assert (Hk' : tuple_in k admin_keys = true).
    { unfold tuple_in. apply existsb_exists. exists k. split; [done|].
      apply String.eqb_refl. }
    by rewrite Hk'.
Qed.

Lemma exec_connect_has_group_id (m : Machine World) :
  is_Some (State.config (sess (snd (exec_connect env m))) !! "group.id").
Proof.
  destruct (decide (State.config (sess m) !! "group.id" = None)) as [Hg|Hg].
  - rewrite (exec_connect_config_after m Hg). by rewrite lookup_insert_eq.
  - rewrite exec_connect_after_default, keeps_config_connect_clients.
    rewrite (default_group_id_present m Hg). simpl.
    destruct (State.config (sess m) !! "group.id"); [by eexists|done].
Qed.

(** X6. The consumer is constructed from the whole configuration, as the
    call leaves it (with the group id it may have generated), except that
    the bootstrap address is the resolved one and "enable.partition.eof"
    is [True] whatever the configuration says. *)
Theorem consumer_gets_whole_configuration (m : Machine World) conf :
  In (Call (CallConsumer conf)) (events_of (exec_connect env) m) ->
  let config := State.config (sess (snd (exec_connect env m))) in
  conf !! "enable.partition.eof" = Some (JBool true) /\
  is_Some (conf !! "bootstrap.servers") /\
  is_Some (conf !! "group.id") /\
  (forall k, k <> "bootstrap.servers" -> k <> "enable.partition.eof" ->
             conf !! k = config !! k).
Proof.
  intros Hin config. destruct (exec_connect_confs m) as (b & Hb).
  rewrite Forall_forall in Hb. apply list_elem_of_In, Hb in Hin. simpl in Hin.
  fold config in Hin. subst conf. unfold consumer_conf.
  split; [by rewrite lookup_insert_eq|]. split; [|split].
  - rewrite lookup_insert_ne by done. by rewrite lookup_insert_eq.
  - rewrite !lookup_insert_ne by done. apply exec_connect_has_group_id.
  - intros k H1 H2. by rewrite !lookup_insert_ne.
Qed.

(** The consumer construction after the admin client was constructed. *)
Lemma connect_clients_admin_ok (m m2 : Machine World) v b a w1 :
  State.config (sess m) !! "bootstrap.servers" = Some v ->
  resolve_bootstrap env v m = (Return b, m2) ->
  AdminClient_init env (admin_conf (State.config (sess m)) b) (world m2) = (Return a, w1) ->
  connect_clients env m =
    instantiate_consumer env (State.config (sess m)) b
      {| sess := State.with_broker b (State.with_admin (Some a) (sess m));
         world := w1;
         trace := trace m2 ++
           [Call (CallAdminClient (admin_conf (State.config (sess m)) b));
            Print " (+) Admin client connected";
            Print ""] |}.
Proof.
  intros Hv Hr Ha.
  destruct (connect_clients_resolved m m2 v b Hv Hr) as [Hs ->].
  unfold bind at 1. rewrite (instantiate_admin_ok _ _ m2 a w1 Ha).
  unfold bind, print, emit. simpl. rewrite Hs. by rewrite <- !app_assoc.
Qed.

(** X7. When both constructions succeed, [exec_connect] returns with both
    handles stored and the label set to the resolved address; the admin
    client is constructed first. *)
Theorem exec_connect_both_clients (m m2 : Machine World) v b a w1 c w2 :
  let m0 := snd (default_group_id env m) in
  let config := State.config (sess m0) in
  config !! "bootstrap.servers" = Some v ->
  resolve_bootstrap env v m0 = (Return b, m2) ->
  AdminClient_init env (admin_conf config b) (world m2) = (Return a, w1) ->
  Consumer_init env (consumer_conf config b) w1 = (Return c, w2) ->
  exec_connect env m =
    (Return tt,
     {| sess := State.with_broker b (State.with_consumer (Some c)
                  (State.with_broker b (State.with_admin (Some a) (sess m0))));
        world := w2;
        trace := trace m2 ++
          [Call (CallAdminClient (admin_conf config b));
           Print " (+) Admin client connected";
           Print "";
           Call (CallConsumer (consumer_conf config b));
           Print " (+) Consumer connected"] |}).
Proof.
  intros m0 config Hv Hr Ha Hc. rewrite exec_connect_after_default. fold m0.
  rewrite (connect_clients_admin_ok m0 m2 v b a w1 Hv Hr Ha). fold config.
  erewrite instantiate_consumer_ok by (simpl; exact Hc). simpl.
  by rewrite <- !app_assoc.
Qed.

(** X8. When the admin client is constructed and the consumer
    construction fails with a [KafkaException], [exec_connect] reports the
    failure and returns with the admin handle stored, the consumer field
    as it was and the label set to the resolved address. *)
Theorem exec_connect_admin_only (m m2 : Machine World) v b a w1 msg w2 :
  let m0 := snd (default_group_id env m) in
  let config := State.config (sess m0) in
  config !! "bootstrap.servers" = Some v ->
  resolve_bootstrap env v m0 = (Return b, m2) ->
  AdminClient_init env (admin_conf config b) (world m2) = (Return a, w1) ->
  Consumer_init env (consumer_conf config b) w1 = (Raise (KafkaException msg), w2) ->
  let s' := sess (snd (exec_connect env m)) in
  fst (exec_connect env m) = Return tt /\
  State.admin s' = Some a /\
  State.consumer s' = State.consumer (sess m) /\
  State.broker s' = b /\
  last (events_of (exec_connect env) m)
    = Some (Print (" (-) Consumer connection failed: " +:+ msg)).
Proof.
  intros m0 config Hv Hr Ha Hc s'. subst s'. unfold events_of.
  rewrite exec_connect_after_default. fold m0.
  rewrite (connect_clients_admin_ok m0 m2 v b a w1 Hv Hr Ha). fold config.
  erewrite instantiate_consumer_kafka by (simpl; exact Hc). simpl.
  assert (Hc0 : State.consumer (sess m0) = State.consumer (sess m)).
  { subst m0. destruct (decide (State.config (sess m) !! "group.id" = None)) as [Hg|Hg].
    - by rewrite (default_group_id_absent m Hg).
    - by rewrite (default_group_id_present m Hg). }
  repeat split; try done.
  destruct (default_group_id_events m) as (es0 & He0 & _). fold m0 in He0.
  destruct (resolve_bootstrap_emits (fun _ => True) v (fun _ => I) m0) as (er & Her & _).
  rewrite Hr in Her. simpl in Her. rewrite Her, He0.
  rewrite <- !app_assoc, app_events.
  change [Call (CallConsumer (consumer_conf config b));
          Print (" (-) Consumer connection failed: " +:+ msg)]
    with ([Call (CallConsumer (consumer_conf config b))]
            ++ [Print (" (-) Consumer connection failed: " +:+ msg)])%list.
  rewrite !app_assoc. apply last_snoc.
Qed.

Lemma default_group_id_handles (m : Machine World) :
  State.admin (sess (snd (default_group_id env m))) = State.admin (sess m) /\
  State.consumer (sess (snd (default_group_id env m))) = State.consumer (sess m) /\
  State.broker (sess (snd (default_group_id env m))) = State.broker (sess m).
Proof.
  destruct (decide (State.config (sess m) !! "group.id" = None)) as [Hg|Hg].
  - by rewrite (default_group_id_absent m Hg).
  - by rewrite (default_group_id_present m Hg).
Qed.

(** X9. When both constructions fail with a [KafkaException],
    [exec_connect] reports both failures and returns; the handle fields and
    the label are what they were before the call, so handles of an earlier
    connection stay in the session. *)
Theorem exec_connect_failed_keeps_session (m m2 : Machine World) v b :
  let m0 := snd (default_group_id env m) in
  let config := State.config (sess m0) in
  config !! "bootstrap.servers" = Some v ->
  resolve_bootstrap env v m0 = (Return b, m2) ->
  no_client_constructed env config b (world m2) ->
  let s' := sess (snd (exec_connect env m)) in
  fst (exec_connect env m) = Return tt /\
  State.admin s' = State.admin (sess m) /\
  State.consumer s' = State.consumer (sess m) /\
  State.broker s' = State.broker (sess m).
Proof.
  intros m0 config Hv Hr (msg1 & w1 & msg2 & w2 & Ha & Hc) s'. subst s'.
  assert (E : exists tr, exec_connect env m
                         = (Return tt, {| sess := sess m0; world := w2; trace := tr |})).
  { rewrite exec_connect_after_default. fold m0.
    destruct (connect_clients_resolved m0 m2 v b Hv Hr) as [Hs ->]. fold config.
    unfold bind at 1. rewrite (instantiate_admin_kafka _ _ m2 msg1 w1 Ha).
    unfold bind, print, emit. simpl.
    erewrite instantiate_consumer_kafka by (simpl; exact Hc). simpl.
    rewrite Hs. by eexists. }
  destruct E as [tr ->]. simpl. split; [done|].
  subst m0. apply default_group_id_handles.
Qed.

(** X10. Only a [KafkaException] is handled: any other exception of the
    admin construction ends [exec_connect] with that exception, before the
    consumer is constructed and with the handle fields and the label as
    they were. *)
Theorem exec_connect_admin_other_exception (m m2 : Machine World) v b cls msg w1 :
  let m0 := snd (default_group_id env m) in
  let config := State.config (sess m0) in
  config !! "bootstrap.servers" = Some v ->
  resolve_bootstrap env v m0 = (Return b, m2) ->
  AdminClient_init env (admin_conf config b) (world m2)
    = (Raise (PyException cls msg), w1) ->
  exec_connect env m =
    (Raise (PyException cls msg),
     {| sess := sess m0; world := w1;
        trace := trace m2 ++ [Call (CallAdminClient (admin_conf config b))] |}) /\
  State.admin (sess m0) = State.admin (sess m) /\
  State.consumer (sess m0) = State.consumer (sess m) /\
  State.broker (sess m0) = State.broker (sess m).
Proof.
  intros m0 config Hv Hr Ha. split; [|apply default_group_id_handles].
  rewrite exec_connect_after_default. fold m0.
  destruct (connect_clients_resolved m0 m2 v b Hv Hr) as [Hs ->]. fold config.
  unfold bind at 1, instantiate_admin, try_except_KafkaException, bind, outside.
  rewrite Ha. simpl. by rewrite Hs.
Qed.

(** *** More on disconnecting *)

(** X11. When the [close] calls return, [exec_disconnect] closes each
    handle it is given exactly once, the admin client first, reports each
    release, and reports "Not connected" exactly when it is given no
    handle; it makes no other call. *)
Theorem exec_disconnect_releases admin consumer (m : Machine World) :
  (forall a w, fst (admin_close env a w) = Return tt) ->
  (forall c w, fst (consumer_close env c w) = Return tt) ->
  fst (exec_disconnect env admin consumer m) = Return tt /\
  events_of (exec_disconnect env admin consumer) m =
    ((if is_None admin && is_None consumer then [Print " (-) Not connected"] else [])
       ++ match admin with
          | Some a => [Call (CallAdminClose a); Print " (+) Admin disconnected"]
          | None => []
          end
       ++ match consumer with
          | Some c => [Call (CallConsumerClose c); Print " (+) Consumer disconnected"]
          | None => []
          end)%list.
Proof.
  intros Ha Hc. unfold events_of, exec_disconnect, bind, outside, print, emit, ret.
  destruct admin as [a|], consumer as [c|]; simpl.
  - specialize (Ha a (world m)). destruct (admin_close env a (world m)) as [r w].
    simpl in Ha. subst r. simpl.
    specialize (Hc c w). destruct (consumer_close env c w) as [r w'].
    simpl in Hc. subst r. simpl. by rewrite <- !app_assoc, app_events.
  - specialize (Ha a (world m)). destruct (admin_close env a (world m)) as [r w].
    simpl in Ha. subst r. simpl. by rewrite <- !app_assoc, app_events.
  - specialize (Hc c (world m)). destruct (consumer_close env c (world m)) as [r w'].
    simpl in Hc. subst r. simpl. by rewrite <- !app_assoc, app_events.
  - by rewrite app_events.
Qed.

(** When [admin.close()] raises, [exec_disconnect] ends with that
    exception: the consumer is not closed and no release is reported. *)
Lemma exec_disconnect_admin_close_raises a consumer (m : Machine World) e w :
  admin_close env a (world m) = (Raise e, w) ->
  exec_disconnect env (Some a) consumer m =
    (Raise e, {| sess := sess m; world := w;
                 trace := trace m ++ [Call (CallAdminClose a)] |}).
Proof.
  intros H. unfold exec_disconnect, bind, outside, print, emit, ret. simpl.
  by rewrite H.
Qed.

(** *** More on the cluster enumeration *)

Ltac keeps_all :=
  repeat match goal with
         | |- keeps _ (describe_broker _ _ _) => unfold describe_broker
         | |- keeps _ (report_brokers _) => unfold report_brokers
         | |- keeps _ (report_configs _ _ _) => unfold report_configs
         | |- keeps _ (fetch_meta _ _ _) => unfold fetch_meta
         | |- keeps _ (bind _ _) => apply keeps_bind
         | |- keeps _ (try_except_KafkaException _ _) => apply keeps_try
         | |- keeps _ (for_each _ _) => apply keeps_for_each
         | |- keeps _ (outside _ _) => apply keeps_outside
         | |- keeps _ (print _) => apply keeps_emit
         | |- keeps _ (tprint _) => apply keeps_emit
         | |- keeps _ (tprint_items _ _) => apply keeps_emit
         | |- keeps _ (ret _) => apply keeps_ret
         | |- keeps _ (raise _) => apply keeps_raise
         | |- keeps _ get_S => apply keeps_get_S
         | |- keeps _ (if ?b then _ else _) => destruct b
         | |- keeps _ (match ?x with _ => _ end) => destruct x
         | |- forall _, _ => intro
         end.

Lemma keeps_session_exec_cluster admin consumer :
  keeps (fun s => s) (exec_cluster env admin consumer).
Proof. unfold exec_cluster. keeps_all. Qed.

Lemma exec_cluster_emits admin consumer :
  emits_only (cluster_call_ok admin consumer) (exec_cluster env admin consumer).
Proof.
  unfold exec_cluster, fetch_meta.
  destruct admin as [a|], consumer as [c|]; simpl; emits; simpl; done.
Qed.

(** X13. [exec_cluster] only looks: whatever the cluster answers, it
    leaves the session as it was, and the only calls it makes are the
    metadata request, with a timeout of 15 and to the consumer only when
    there is no admin client, and configuration requests for broker
    resources to the admin client. It constructs and closes nothing. *)
Theorem exec_cluster_read_only admin consumer (m : Machine World) :
  sess (snd (exec_cluster env admin consumer m)) = sess m /\
  Forall (cluster_call_ok admin consumer) (events_of (exec_cluster env admin consumer) m).
Proof.
  split.
  - apply (keeps_session_exec_cluster admin consumer m).
  - apply emits_only_events, exec_cluster_emits.
Qed.

(** X14. A metadata request that fails with a [KafkaException] ends the
    enumeration after the diagnostic: no table, no configuration request,
    and no second try with the consumer when the admin client was asked. *)
Theorem exec_cluster_metadata_failure (m : Machine World) msg w :
  (forall a consumer,
      admin_list_topics env a 15 (world m) = (Raise (KafkaException msg), w) ->
      exec_cluster env (Some a) consumer m =
        (Return tt,
         {| sess := sess m; world := w;
            trace := trace m ++ [Call (CallAdminListTopics a 15);
                                 Print (" (-) Could not query metadata: " +:+ msg);
                                 Print ""] |})) /\
  (forall c,
      consumer_list_topics env c 15 (world m) = (Raise (KafkaException msg), w) ->
      exec_cluster env None (Some c) m =
        (Return tt,
         {| sess := sess m; world := w;
            trace := trace m ++ [Call (CallConsumerListTopics c 15);
                                 Print (" (-) Could not query metadata: " +:+ msg);
                                 Print ""] |})).
Proof.
  split.
  - intros a consumer H.
    unfold exec_cluster, fetch_meta, try_except_KafkaException, bind, outside,
      print, emit, ret, report_configs. simpl.
    rewrite H. simpl. by rewrite <- !app_assoc.
  - intros c H.
    unfold exec_cluster, fetch_meta, try_except_KafkaException, bind, outside,
      print, emit, ret, report_configs. simpl.
    rewrite H. simpl. by rewrite <- !app_assoc.
Qed.

(** [sorted] is a sort: for a total and transitive order on the keys its
    result is a rearrangement of its argument in ascending key order. *)
Section SortedCorrect.
Context {A K : Type} (key : A -> K) (leb : K -> K -> bool).
Hypothesis leb_total : forall x y, leb x y = true \/ leb y x = true.
Hypothesis leb_trans : forall x y z, leb x y = true -> leb y z = true -> leb x z = true.

Local Abbreviation le := (fun a b => leb (key a) (key b) = true).

Lemma insert_sorted_Permutation x l : Permutation (insert_sorted key leb x l) (x :: l).
Proof.
  induction l as [|y l IH]; simpl; [done|].
  destruct (leb (key y) (key x)); [|done].
  rewrite IH. apply perm_swap.
Qed.

Lemma insert_sorted_StronglySorted x l :
  StronglySorted le l -> StronglySorted le (insert_sorted key leb x l).
Proof.
  induction 1 as [|y l Hs IH Hy]; simpl; [by repeat constructor|].
  destruct (leb (key y) (key x)) eqn:E.
  - constructor; [done|].
    rewrite Forall_forall. intros z Hz.
    apply list_elem_of_In in Hz.
    apply (Permutation_in _ (insert_sorted_Permutation x l)) in Hz as [<-|Hz]; [done|].
    rewrite List.Forall_forall in Hy. by apply Hy.
  - assert (Hxy : leb (key x) (key y) = true).
    { destruct (leb_total (key x) (key y)); [done|congruence]. }
    constructor; [by constructor|].
    constructor; [done|].
    eapply Forall_impl; [exact Hy|]. intros z Hz. simpl in *. by eapply leb_trans.
Qed.

Lemma sorted_correct l :
  Permutation (sorted key leb l) l /\ StronglySorted le (sorted key leb l).
Proof.
  unfold sorted.
  assert (G : forall acc, StronglySorted le acc ->
                Permutation (fold_left (fun acc x => insert_sorted key leb x acc) l acc)
                            (acc ++ l) /\
                StronglySorted le (fold_left (fun acc x => insert_sorted key leb x acc) l acc)).
  { induction l as [|x l IH]; intros acc Hacc; simpl.
    - by rewrite app_nil_r.
    - destruct (IH (insert_sorted key leb x acc)) as [Hp Hs].
      { by apply insert_sorted_StronglySorted. }
      split; [|done]. rewrite Hp, insert_sorted_Permutation.
      simpl. apply Permutation_middle. }
  destruct (G []) as [Hp Hs]; [constructor|]. by split.
Qed.
End SortedCorrect.

(** X15. The broker table lists every broker of the snapshot exactly
    once, whatever the order of the broker dict, in ascending order of
    the brokers' ids. *)
Theorem broker_table_sorted (meta : ClusterMetadata) (m : Machine World) rows :
  In (Tprint rows) (events_of (report_brokers meta) m) ->
  exists bs,
    rows = [CStr "ID"; CStr "Host"; CStr "Port"] :: map broker_row bs /\
    Permutation bs (values (brokers meta)) /\
    StronglySorted (fun a b => id a <= id b) bs.
Proof.
  intros Hin.
  assert (Hr : rows = [CStr "ID"; CStr "Host"; CStr "Port"]
                        :: map broker_row (sorted id Z.leb (values (brokers meta)))).
  { unfold events_of, report_brokers, bind, print, tprint, emit in Hin. simpl in Hin.
    destruct (in_brokers (orig_broker_id meta) (brokers meta)),
             (in_brokers (controller_id meta) (brokers meta));
      simpl in Hin; rewrite <- !app_assoc, app_events in Hin; simpl in Hin;
      repeat (destruct Hin as [Hin|Hin]; try discriminate Hin); try done;
      by injection Hin as <-. }
  destruct (sorted_correct id Z.leb) with (l := values (brokers meta)) as [Hp Hs].
  { intros x y. rewrite !Z.leb_le. lia. }
  { intros x y z. rewrite !Z.leb_le. lia. }
  exists (sorted id Z.leb (values (brokers meta))). split; [done|]. split; [done|].
  clear -Hs. induction Hs as [|b bs Hs IH Hb]; constructor; [done|].
  eapply Forall_impl; [exact Hb|]. intros c Hc. simpl in Hc. by apply Z.leb_le.
Qed.

Lemma string_leb_iff (a b : string) :
  String.leb a b = true <-> a = b \/ OrderedTypeEx.String_as_OT.lt a b.
Proof.
  unfold String.leb. split.
  - destruct (String.compare a b) eqn:E; [| |done]; intros _.
    + left. exact (String.compare_eq_iff a b E).
    + right. by apply OrderedTypeEx.String_as_OT.cmp_lt.
  - intros [->|Hlt].
    + assert (E : String.compare b b = Eq)
        by exact (proj2 (OrderedTypeEx.String_as_OT.cmp_eq b b) eq_refl).
      by rewrite E.
    + apply OrderedTypeEx.String_as_OT.cmp_lt in Hlt.
      unfold OrderedTypeEx.String_as_OT.cmp in Hlt. by rewrite Hlt.
Qed.

Lemma string_leb_trans (a b c : string) :
  String.leb a b = true -> String.leb b c = true -> String.leb a c = true.
Proof.
  rewrite !string_leb_iff. intros [->|H1] [->|H2]; auto.
  right. by eapply OrderedTypeEx.String_as_OT.lt_trans.
Qed.

Lemma StronglySorted_filter_keep {A} (R : A -> A -> Prop) (f : A -> bool) l :
  StronglySorted R l -> StronglySorted R (List.filter f l).
Proof.
  induction 1 as [|x l Hs IH Hx]; simpl; [constructor|].
  destruct (f x); [|done]. constructor; [done|].
  rewrite List.Forall_forall in *. intros y Hy. apply filter_In in Hy as [Hy _].
  by apply Hx.
Qed.

(** X16. The configuration table of a broker has one row for each
    returned entry whose key occurs in "ssl.client.auth", in ascending
    order of the keys; the entry whose key is "ssl.client.auth" is always
    among them. *)
Theorem config_table_rows (entries : gmap string ConfigEntry) :
  exists kes : list (string * ConfigEntry),
    entry_rows entries = map (fun ke => entry_row (snd ke)) kes /\
    StronglySorted (fun a b => String.leb (fst a) (fst b) = true) kes /\
    NoDup (map fst kes) /\
    (forall k e, In (k, e) kes <->
                 entries !! k = Some e /\ str_in k "ssl.client.auth" = true) /\
    (forall e, entries !! "ssl.client.auth" = Some e -> In ("ssl.client.auth", e) kes).
Proof.
  exists (List.filter (fun ke => shown (fst ke)) (sorted_items entries)).
  destruct (sorted_correct fst String.leb String.leb_total string_leb_trans
              (map_to_list entries)) as [Hp Hs].
  assert (Hin : forall k e,
             In (k, e) (List.filter (fun ke => shown (fst ke)) (sorted_items entries)) <->
             entries !! k = Some e /\ str_in k "ssl.client.auth" = true).
  { intros k e. rewrite filter_In. unfold sorted_items, shown. simpl.
    rewrite In_sorted, <- list_elem_of_In, elem_of_map_to_list. done. }
  split; [done|]. split; [by apply StronglySorted_filter_keep|]. split; [|split].
  - unfold sorted_items.
    assert (Hnd : NoDup (map fst (sorted fst String.leb (map_to_list entries)))).
    { rewrite Hp. apply NoDup_fst_map_to_list. }
    revert Hnd. generalize (sorted fst String.leb (map_to_list entries)).
    induction l as [|[k e] l IH]; simpl; [constructor|].
    intros Hnd. apply NoDup_cons in Hnd as [Hk Hnd].
    destruct (shown k); simpl; [|by apply IH].
    apply NoDup_cons. split; [|by apply IH].
    intros Hk'. apply Hk. apply list_elem_of_In in Hk'. apply list_elem_of_In.
    apply in_map_iff in Hk' as ([k' e'] & <- & Hf). apply filter_In in Hf as [Hf _].
    apply in_map_iff. by exists (k', e').
  - exact Hin.
  - intros e He. apply Hin. split; [done|reflexivity].
Qed.

Lemma str_slice_to_prefix n s :
  (String.length (str_slice_to n s) = Nat.min n (String.length s)) /\
  exists rest, s = str_slice_to n s +:+ rest.
Proof.
  revert s. induction n as [|n IH]; intros s; simpl.
  - split; [done|]. by exists s.
  - destruct s as [|a s]; simpl; [split; [done|by exists ""]|].
    destruct (IH s) as [Hl [rest Hr]]. split; [by rewrite Hl|].
    exists rest. change (String a s = String a (str_slice_to n s +:+ rest)).
    f_equal. exact Hr.
Qed.

Lemma str_slice_to_whole n s :
  (String.length s <= n)%nat -> str_slice_to n s = s.
Proof.
  revert s. induction n as [|n IH]; intros [|a s]; simpl; try done; [lia|].
  intros Hle. f_equal. apply IH. lia.
Qed.

(** X17. A row of the configuration table shows the first 40 characters
    of the entry's name and the first 20 of its value, "-" for a value
    that is absent, and "Yes" or nothing for the two flags; names and
    values within these widths are shown whole. *)
Theorem entry_row_cells (e : ConfigEntry) :
  exists nm vl ro se,
    entry_row e = [CStr nm; CStr vl; CInt (source e); CStr ro; CStr se] /\
    (String.length nm <= 40)%nat /\ (exists rest, name e = nm +:+ rest) /\
    ((String.length (name e) <= 40)%nat -> nm = name e) /\
    match value e with
    | None => vl = "-"
    | Some v => (String.length vl <= 20)%nat /\ (exists rest, v = vl +:+ rest) /\
                ((String.length v <= 20)%nat -> vl = v)
    end /\
    (ro = "Yes" <-> is_read_only e = true) /\ (ro = "Yes" \/ ro = "") /\
    (se = "Yes" <-> is_sensitive e = true) /\ (se = "Yes" \/ se = "").
Proof.
  pose proof str_slice_to_whole as Hwhole.
  unfold entry_row. eexists _, _, _, _. split; [reflexivity|].
  destruct (str_slice_to_prefix 40 (name e)) as [Hl Hr].
  split; [lia|]. split; [done|]. split; [apply Hwhole|]. split.
  - destruct (value e) as [v|]; [|done].
    destruct (str_slice_to_prefix 20 v) as [Hl' Hr'].
    split; [lia|]. split; [done|apply Hwhole].
  - destruct (is_read_only e), (is_sensitive e); repeat split; auto; done.
Qed.

(** *** The command loop *)

(** Properties of the session that assignments of a handle or of the
    label and additions to the configuration keep. *)
Section Accumulate.
Context (Q : State.t -> Prop).
Hypothesis Q_admin : forall a s, Q s -> Q (State.with_admin (Some a) s).
Hypothesis Q_consumer : forall c s, Q s -> Q (State.with_consumer (Some c) s).
Hypothesis Q_broker : forall b s, Q s -> Q (State.with_broker b s).
Hypothesis Q_insert :
  forall k v s, Q s -> Q (State.with_config (<[k := v]> (State.config s)) s).
Hypothesis Q_union :
  forall new s, Q s -> Q (State.with_config (new ∪ State.config s) s).

Lemma preserves_keeps {A} (p : M A) : keeps (fun s => s) p -> preserves Q p.
Proof. intros Hk m Hq. by rewrite (Hk m). Qed.

Lemma preserves_bind {A B} (p : M A) (k : A -> M B) :
  preserves Q p -> (forall a, preserves Q (k a)) -> preserves Q (bind p k).
Proof.
  intros Hp Hk m Hq. unfold bind. specialize (Hp m Hq).
  destruct (p m) as [[a|e] m']; simpl in *; [|done]. by apply Hk.
Qed.

Lemma preserves_try {A} (body : M A) (h : string -> M A) :
  preserves Q body -> (forall msg, preserves Q (h msg)) ->
  preserves Q (try_except_KafkaException body h).
Proof.
  intros Hb Hh m Hq. unfold try_except_KafkaException. specialize (Hb m Hq).
  destruct (body m) as [[a|[msg|cls msg]] m']; simpl in *; try done. by apply Hh.
Qed.

Lemma preserves_exec_load fpath : preserves Q (exec_load env fpath).
Proof.
  intros m Hq. destruct (exec_load_session fpath m) as [->|(new & _ & ->)]; [done|].
  by apply Q_union.
Qed.

Lemma preserves_exec_connect : preserves Q (exec_connect env).
Proof.
  intros m Hq. rewrite exec_connect_after_default.
  assert (Hq0 : Q (sess (snd (default_group_id env m)))).
  { destruct (decide (State.config (sess m) !! "group.id" = None)) as [Hg|Hg].
    - rewrite (default_group_id_absent m Hg). simpl. by apply Q_insert.
    - by rewrite (default_group_id_present m Hg). }
  revert Hq0. generalize (snd (default_group_id env m)). clear m Hq.
  change (preserves Q (connect_clients env)).
  unfold connect_clients, get_config.
  apply preserves_bind; [by apply preserves_keeps; keeps_all|]. intros config.
  destruct (config !! "bootstrap.servers") as [v|];
    [|by apply preserves_keeps; keeps_all].
  apply preserves_bind.
  { apply preserves_keeps. destruct v; simpl; keeps_all.
    unfold random_choice. destruct l; keeps_all. }
  intros b. unfold instantiate_admin, instantiate_consumer.
  repeat match goal with
         | |- preserves _ (set_admin _) => intros ? ?; simpl; auto
         | |- preserves _ (set_consumer _) => intros ? ?; simpl; auto
         | |- preserves _ (set_broker _) => intros ? ?; simpl; auto
         | |- preserves _ (bind _ _) => apply preserves_bind
         | |- preserves _ (try_except_KafkaException _ _) => apply preserves_try
         | |- preserves _ (outside _ _) => apply preserves_keeps; keeps_all
         | |- preserves _ (print _) => apply preserves_keeps; keeps_all
         | |- forall _, _ => intro
         end.
Qed.

Lemma preserves_run_command command : preserves Q (run_command env command).
Proof.
  unfold run_command. destruct command as [|c0 rest].
  { apply preserves_keeps. keeps_all. }
  repeat match goal with
         | |- preserves _ (exec_load _ _) => apply preserves_exec_load
         | |- preserves _ (exec_connect _) => apply preserves_exec_connect
         | |- preserves _ (exec_disconnect _ _ _) =>
             apply preserves_keeps, keeps_session_exec_disconnect
         | |- preserves _ (exec_cluster _ _ _) =>
             apply preserves_keeps, keeps_session_exec_cluster
         | |- preserves _ (print_config _) =>
             apply preserves_keeps; unfold print_config; keeps_all
         | |- preserves _ (bind _ _) => apply preserves_bind
         | |- preserves _ (if ?b then _ else _) => destruct b
         | |- preserves _ (match ?x with _ => _ end) => destruct x
         | |- preserves _ (ret _) => apply preserves_keeps; keeps_all
         | |- preserves _ (print _) => apply preserves_keeps; keeps_all
         | |- preserves _ (tprint _) => apply preserves_keeps; keeps_all
         | |- preserves _ (tprint_items _ _) => apply preserves_keeps; keeps_all
         | |- preserves _ get_S => apply preserves_keeps; keeps_all
         | |- forall _, _ => intro
         end.
Qed.
End Accumulate.

(** X18. The commands only accumulate: whatever the command and whatever
    the outside answers, a configuration key that was set is still set
    afterwards and a handle field that held a handle still holds one
    ([disconnect] included). *)
Theorem run_command_accumulates (command : list string) (m : Machine World) :
  let s' := sess (snd (run_command env command m)) in
  (forall k, is_Some (State.config (sess m) !! k) -> is_Some (State.config s' !! k)) /\
  (is_Some (State.admin (sess m)) -> is_Some (State.admin s')) /\
  (is_Some (State.consumer (sess m)) -> is_Some (State.consumer s')).
Proof.
  intros s'. subst s'. split; [|split].
  - intros k.
    apply (preserves_run_command (fun s => is_Some (State.config s !! k))); simpl; auto.
    + intros k' v s Hs. rewrite lookup_insert_is_Some.
      destruct (decide (k' = k)); auto.
    + intros new s Hs. rewrite lookup_union_is_Some. by right.
  - apply (preserves_run_command (fun s => is_Some (State.admin s))); simpl; auto.
  - apply (preserves_run_command (fun s => is_Some (State.consumer s))); simpl; auto.
Qed.

Lemma result_bind {A B} (R : B -> Prop) (p : M A) (k : A -> M B) :
  (forall a m r, fst (k a m) = Return r -> R r) ->
  forall m r, fst (bind p k m) = Return r -> R r.
Proof.
  intros Hk m r. unfold bind. destruct (p m) as [[a|e] m']; [apply Hk|done].
Qed.

Lemma result_then_true {A} (p : M A) m r :
  fst (bind p (fun _ => ret true) m) = Return r -> r = true.
Proof.
  revert m r. apply result_bind. intros _ m r. unfold ret. simpl. congruence.
Qed.

Lemma run_command_result (command : list string) (m : Machine World) r :
  fst (run_command env command m) = Return r ->
  r = true \/ head command = Some "exit".
Proof.
  destruct command as [|c0 rest]; [intros [= <-]; by left|].
  unfold run_command. revert m r.
  apply (result_bind (fun r => r = true \/ head (c0 :: rest) = Some "exit")).
  intros _. destruct (String.eqb c0 "exit") eqn:E.
  { intros m r _. right. apply String.eqb_eq in E. by subst. }
  repeat match goal with
         | |- forall m r, fst ((if ?b then _ else _) m) = _ -> _ => destruct b
         | |- forall m r, fst ((match ?x with _ => _ end) m) = _ -> _ => destruct x
         | |- forall m r, fst (bind get_S _ m) = _ -> _ => apply result_bind; intros ?
         | |- forall m r, fst (bind _ (fun _ => ret true) m) = _ -> _ =>
             intros ? ? ?; left; by eapply result_then_true
         end.
Qed.

(** X19. The command loop goes on after every command but [exit]: a
    turn ends the loop exactly when the first word is "exit", and then it
    has printed a blank line and done nothing else. *)
Theorem run_command_ends_on_exit (command : list string) (m : Machine World) :
  (fst (run_command env command m) = Return false <-> head command = Some "exit") /\
  (head command = Some "exit" ->
   run_command env command m =
     (Return false,
      {| sess := sess m; world := world m; trace := trace m ++ [Print ""] |})).
Proof.
  assert (Hexit : head command = Some "exit" ->
                  run_command env command m =
                    (Return false,
                     {| sess := sess m; world := world m;
                        trace := trace m ++ [Print ""] |})).
  { destruct command as [|c0 rest]; [done|]. intros [= ->]. reflexivity. }
  split; [|exact Hexit]. split; [|by intros ->%Hexit].
  intros H. by destruct (run_command_result command m false H).
Qed.

(** X20. [connect] on an empty configuration and [load] without exactly
    one file name are turned down with one line: no identifier is drawn,
    no file is read, nothing is constructed and the session stays as it
    was. *)
Theorem run_command_turned_down (rest : list string) (m : Machine World) :
  (State.config (sess m) = ∅ ->
   run_command env ("connect" :: rest) m =
     (Return true,
      {| sess := sess m; world := world m;
         trace := trace m ++ [Print ""; Print " (-) Configuration required"] |})) /\
  (length rest <> 1%nat ->
   run_command env ("load" :: rest) m =
     (Return true,
      {| sess := sess m; world := world m;
         trace := trace m ++ [Print ""; Print " (-) usage: load <file>"] |})).
Proof.
  split.
  - intros He. unfold run_command, bind, print, emit, get_S, ret. simpl.
    destruct (decide (State.config (sess m) = ∅)); [|done].
    simpl. by rewrite <- app_assoc.
  - intros Hl. unfold run_command, bind, print, emit, get_S, ret. simpl.
    destruct rest as [|f [|g rest]]; simpl in *; try done; by rewrite <- app_assoc.
Qed.

(** X21. A first word that is no command is reported by name; the turn
    makes no call, leaves the session as it was and the loop goes on. *)
Theorem run_command_not_found (c0 : string) (rest : list string) (m : Machine World) :
  ~ In c0 ["exit"; "help"; "?"; "config"; "load"; "connect"; "disconnect"; "cluster"] ->
  run_command env (c0 :: rest) m =
    (Return true,
     {| sess := sess m; world := world m;
        trace := trace m ++ [Print ""; Print (" (-) Command not found: " +:+ c0)] |}).
Proof.
  intros Hn. unfold run_command, tuple_in. simpl existsb.
  repeat match goal with
         | |- context [String.eqb c0 ?s] =>
             let E := fresh "E" in
             destruct (String.eqb c0 s) eqn:E;
             [apply String.eqb_eq in E; subst; exfalso; apply Hn; simpl; tauto|]
         end.
  unfold bind, print, emit, ret. simpl. by rewrite <- app_assoc.
Qed.

(** *** Runs that return *)

Lemma returns_ret {A} (a : A) : returns (World:=World) (ret a).
Proof. intros m. by exists a. Qed.

Lemma returns_emit e : returns (World:=World) (emit e).
Proof. intros m. by exists tt. Qed.

Lemma returns_get_S : returns (World:=World) get_S.
Proof. intros m. by eexists. Qed.

Lemma returns_put_get (g : State.t -> State.t) :
  returns (World:=World) (let* s := get_S in put_S (g s)).
Proof. intros m. by exists tt. Qed.

Lemma returns_bind {A B} (p : M A) (k : A -> M B) :
  returns p -> (forall a, returns (k a)) -> returns (bind p k).
Proof.
  intros Hp Hk m. unfold bind. destruct (Hp m) as [a Ha].
  destruct (p m) as [[a'|e] m']; simpl in *; [|done]. apply Hk.
Qed.

Lemma returns_for_each {A} (l : list A) (body : A -> M unit) :
  (forall x, returns (body x)) -> returns (for_each l body).
Proof.
  intros Hb. induction l as [|x l IH]; simpl; [apply returns_ret|].
  by apply returns_bind.
Qed.

Lemma returns_Kafka {A} (p : M A) : returns p -> raises_Kafka_only p.
Proof. intros Hp m. destruct (Hp m) as [a ->]. done. Qed.

Lemma raises_Kafka_outside {A} c (g : World -> outcome A * World) :
  (forall w, Kafka_or_result (fst (g w))) -> raises_Kafka_only (outside c g).
Proof.
  intros Hg m. unfold outside. specialize (Hg (world m)).
  by destruct (g (world m)).
Qed.

Lemma raises_Kafka_bind {A B} (p : M A) (k : A -> M B) :
  raises_Kafka_only p -> (forall a, raises_Kafka_only (k a)) ->
  raises_Kafka_only (bind p k).
Proof.
  intros Hp Hk m. unfold bind. specialize (Hp m).
  destruct (p m) as [[a|e] m']; simpl in *; [apply Hk|done].
Qed.

Lemma returns_try {A} (body : M A) (h : string -> M A) :
  raises_Kafka_only body -> (forall msg, returns (h msg)) ->
  returns (try_except_KafkaException body h).
Proof.
  intros Hb Hh m. unfold try_except_KafkaException. specialize (Hb m).
  destruct (body m) as [[a|[msg|cls msg]] m']; simpl in *; [by eexists|apply Hh|done].
Qed.

Ltac returns_script :=
  repeat match goal with
         | |- returns (set_admin _) => apply returns_put_get
         | |- returns (set_consumer _) => apply returns_put_get
         | |- returns (set_broker _) => apply returns_put_get
         | |- returns (set_config _) => apply returns_put_get
         | |- returns (bind _ _) => apply returns_bind
         | |- returns (try_except_KafkaException _ _) => apply returns_try
         | |- returns (for_each _ _) => apply returns_for_each
         | |- returns (print _) => apply returns_emit
         | |- returns (tprint _) => apply returns_emit
         | |- returns (tprint_items _ _) => apply returns_emit
         | |- returns (ret _) => apply returns_ret
         | |- returns get_S => apply returns_get_S
         | |- returns (if ?b then _ else _) => destruct b
         | |- returns (match ?x with _ => _ end) => destruct x
         | |- raises_Kafka_only (bind _ _) => apply raises_Kafka_bind
         | |- raises_Kafka_only (outside _ _) => apply raises_Kafka_outside
         | |- raises_Kafka_only (match ?x with _ => _ end) => destruct x
         | |- raises_Kafka_only _ => apply returns_Kafka
         | |- forall _, _ => intro
         end.

(** X22. When the client library fails with [KafkaException] only,
    [exec_cluster] always returns: no failure of the metadata request or of
    a configuration request gets out of it. *)
Theorem exec_cluster_returns admin consumer (m : Machine World) :
  library_raises_Kafka_only env ->
  fst (exec_cluster env admin consumer m) = Return tt.
Proof.
  intros (_ & _ & Hla & Hlc & Hd).
  assert (H : returns (exec_cluster env admin consumer)).
  { unfold exec_cluster, fetch_meta, report_brokers, report_configs, describe_broker.
    returns_script; auto. }
  destruct (H m) as [[] ->]. done.
Qed.

(** X12. When the client library fails with [KafkaException] only and the
    bootstrap value is not an empty list, [exec_connect] always returns. *)
Theorem exec_connect_returns (m : Machine World) :
  library_raises_Kafka_only env ->
  State.config (sess m) !! "bootstrap.servers" <> Some (JList []) ->
  fst (exec_connect env m) = Return tt.
Proof.
  intros (Ha & Hc & _) Hb. rewrite exec_connect_after_default.
  set (m0 := snd (default_group_id env m)).
  assert (Hb0 : State.config (sess m0) !! "bootstrap.servers" <> Some (JList [])).
  { subst m0. destruct (decide (State.config (sess m) !! "group.id" = None)) as [Hg|Hg].
    - rewrite (default_group_id_absent m Hg). simpl. by rewrite lookup_insert_ne.
    - by rewrite (default_group_id_present m Hg). }
  clearbody m0. clear m Hb.
  unfold connect_clients, get_config, get_S, bind at 1 2, ret. simpl.
  destruct (State.config (sess m0) !! "bootstrap.servers") as [v|] eqn:Hv; [|done].
  assert (H : returns (let* bootstrap_server := resolve_bootstrap env v in
                       instantiate_admin env (State.config (sess m0)) bootstrap_server ;;
                       print "" ;;
                       instantiate_consumer env (State.config (sess m0)) bootstrap_server)).
  { apply returns_bind.
    - destruct v; simpl; try apply returns_ret.
      destruct l as [|x l]; [done|]. unfold random_choice.
      apply returns_bind; [|intros; apply returns_ret].
      intros m. unfold outside. destruct (randbelow env _ (world m)). by eexists.
    - intros b. unfold instantiate_admin, instantiate_consumer.
      returns_script; auto. }
  destruct (H m0) as [[] ->]. done.
Qed.

End Properties.

(** ** The properties at concrete inputs *)

Lemma exec_load_rejected_keeps_config_witness :
  load_rejected (fst (json_load Demo.env_up "array.json" (world Demo.m_connected))) /\
  exec_load Demo.env_up "array.json" Demo.m_connected =
    (Return tt,
     {| sess := Demo.connected; world := 0%nat;
        trace := [Call (CallJsonLoad "array.json");
                  Print " (-) Configuration must be an object"] |}).
Proof.
  split; [reflexivity|].
  apply (exec_load_rejected_keeps_config Demo.env_up "array.json" Demo.m_connected).
  reflexivity.
Defined.

Lemma exec_load_shallow_override_witness :
  fst (json_load Demo.env_up "first.json" (world Demo.m_fresh))
    = Return (JDict (<["bootstrap.servers" := JStr "localhost:9092"]>
                       (<["security.protocol" := JStr "SSL"]> ∅))) /\
  State.config
    (sess (snd (exec_load Demo.env_up "second.json"
                  (snd (exec_load Demo.env_up "first.json" Demo.m_fresh)))))
    = <["security.protocol" := JStr "PLAINTEXT"]>
        (<["bootstrap.servers" := JStr "localhost:9092"]>
           (<["security.protocol" := JStr "SSL"]> ∅)).
Proof.
  split; [reflexivity|].
  destruct (exec_load_shallow_override Demo.env_up "first.json" Demo.m_fresh _ eq_refl)
    as (_ & _ & _ & Hseq).
  destruct (Hseq "second.json" "security.protocol" (JStr "PLAINTEXT") eq_refl)
    as (_ & Hempty & _).
  apply Hempty. reflexivity.
Defined.

Lemma exec_connect_requires_bootstrap_witness :
  State.config (sess Demo.m_no_bootstrap) !! "bootstrap.servers" = None /\
  never_connected (sess Demo.m_no_bootstrap) /\
  fst (exec_connect Demo.env_up Demo.m_no_bootstrap) = Return tt /\
  never_connected (sess (snd (exec_connect Demo.env_up Demo.m_no_bootstrap))) /\
  Forall (fun e => is_client_call e = false)
         (events_of (exec_connect Demo.env_up) Demo.m_no_bootstrap) /\
  last (events_of (exec_connect Demo.env_up) Demo.m_no_bootstrap) =
    Some (Print " (-) Bootstrap server not configured").
Proof.
  assert (Hb : State.config (sess Demo.m_no_bootstrap) !! "bootstrap.servers" = None)
    by (vm_compute; reflexivity).
  assert (Hn : never_connected (sess Demo.m_no_bootstrap))
    by (split; [|split]; reflexivity).
  split; [exact Hb|]. split; [exact Hn|].
  exact (exec_connect_requires_bootstrap Demo.env_up Demo.m_no_bootstrap Hb Hn).
Defined.

Lemma exec_connect_stores_group_id_witness :
  State.config (sess Demo.m_no_bootstrap) !! "group.id" = None /\
  State.config (sess (snd (exec_connect Demo.env_up Demo.m_no_bootstrap))) =
    <["group.id" := JStr "0f8fad5bd9cb469fa16570867728950e"]> Demo.config_no_bootstrap /\
  events_of (exec_connect Demo.env_up)
            (snd (exec_connect Demo.env_up Demo.m_no_bootstrap)) =
    [Print " (-) Bootstrap server not configured"].
Proof.
  assert (Hg : State.config (sess Demo.m_no_bootstrap) !! "group.id" = None)
    by (vm_compute; reflexivity).
  split; [exact Hg|].
  destruct (exec_connect_stores_group_id Demo.env_up Demo.m_no_bootstrap Hg)
    as (Hc & Hab & _).
  split; [exact Hc|].
  assert (Hb : State.config (sess Demo.m_no_bootstrap) !! "bootstrap.servers" = None)
    by (vm_compute; reflexivity).
  exact (proj2 (proj2 (Hab Hb))).
Defined.

Lemma exec_disconnect_keeps_handles_witness :
  sess (snd (exec_disconnect Demo.env_up (Some Demo.admin1) (Some (ConsumerObj 2))
               Demo.m_connected)) = Demo.connected /\
  head (events_of
          (exec_disconnect Demo.env_up (Some Demo.admin1) (Some (ConsumerObj 2)))
          (snd (exec_disconnect Demo.env_up (Some Demo.admin1) (Some (ConsumerObj 2))
                  Demo.m_connected)))
    = Some (Call (CallAdminClose Demo.admin1)) /\
  head (events_of
          (exec_cluster Demo.env_up (Some Demo.admin1) (Some (ConsumerObj 2)))
          (snd (exec_disconnect Demo.env_up (Some Demo.admin1) (Some (ConsumerObj 2))
                  Demo.m_connected)))
    = Some (Call (CallAdminListTopics Demo.admin1 15)).
Proof.
  destruct (exec_disconnect_keeps_handles Demo.env_up Demo.m_connected) as (Hs & Ha & _).
  split; [exact Hs|].
  exact (Ha Demo.admin1 eq_refl).
Defined.


Lemma exec_cluster_validates_ids_witness :
  fetch_meta Demo.env_up (Some Demo.admin1) None Demo.m_connected
    = (Return (Some Demo.meta132), Demo.m_listed) /\
  In (Print " (+) Metadata origin broker ID: 1")
     (events_of (exec_cluster Demo.env_up (Some Demo.admin1) None) Demo.m_connected) /\
  In (Print " (-) Invalid controller broker ID: 7")
     (events_of (exec_cluster Demo.env_up (Some Demo.admin1) None) Demo.m_connected) /\
  fst (exec_cluster Demo.env_up (Some Demo.admin1) None Demo.m_connected) = Return tt.
Proof.
  assert (Hf : fetch_meta Demo.env_up (Some Demo.admin1) None Demo.m_connected
               = (Return (Some Demo.meta132), Demo.m_listed))
    by reflexivity.
  split; [exact Hf|].
  destruct (exec_cluster_validates_ids Demo.env_up (Some Demo.admin1) None
              Demo.m_connected Demo.m_listed Demo.meta132 Hf)
    as (origin & controller & Ho & _ & _ & Hc & Hrun).
  assert (Eo : origin = " (+) Metadata origin broker ID: 1").
  { apply Ho. simpl. auto. }
  assert (Ec : controller = " (-) Invalid controller broker ID: 7").
  { apply Hc. simpl. intros [H|[H|[H|[]]]]; discriminate H. }
  subst origin controller. unfold events_of. rewrite Hrun.
  vm_compute. split; [|split]; auto 20.
Defined.

(** The demo world answers every configuration request or fails it with
    a [KafkaException]; there the loop over the brokers requests 1, 3, 2. *)
Lemma demo_describe_answers_or_fails : describe_answers_or_fails Demo.env_up.
Proof.
  intros a res w. simpl.
  by destruct (String.eqb (resname res) "2").
Qed.

Lemma demo_requests :
  requested_brokers
    (events_of (report_configs Demo.env_up (Some Demo.admin1) (Some Demo.meta132))
               Demo.m_listed) = ["1"; "3"; "2"].
Proof.
  apply (report_configs_requests Demo.env_up Demo.admin1 Demo.meta132 Demo.m_listed).
  apply demo_describe_answers_or_fails.
Qed.

(** Python's [in] on strings and on tuples, and slicing, on samples. *)
Example str_in_samples :
  str_in "ssl" "ssl.client.auth" = true /\
  str_in "" "ssl.client.auth" = true /\
  str_in "t.a" "ssl.client.auth" = true /\
  str_in "ssl.client.auth" "ssl.client.auth" = true /\
  str_in "ssl.client.auth.x" "ssl.client.auth" = false /\
  str_in "log.dirs" "ssl.client.auth" = false.
Proof. repeat split. Qed.

Example tuple_in_samples :
  tuple_in "ssl.key.location" admin_keys = true /\
  tuple_in "ssl" admin_keys = false /\
  tuple_in "group.id" admin_keys = false.
Proof. repeat split. Qed.

Example str_slice_to_samples :
  str_slice_to 20 "required" = "required" /\
  str_slice_to 3 "required" = "req" /\
  str_int (-7) = "-7" /\
  sorted id Z.leb [Demo.broker1; Demo.broker3; Demo.broker2]
    = [Demo.broker1; Demo.broker2; Demo.broker3].
Proof. repeat split. Qed.

(** ** Where the script departs from its description *)

(** C1. The filter of the configuration table is a substring test: a
    fetch result that holds an entry named "ssl", which is not the
    allow-listed name, gets a row for it in the table [exec_cluster]
    prints. *)
Theorem entry_named_ssl_is_shown :
  tuple_in "ssl" ["ssl.client.auth"] = false /\
  Demo.entries_ssl !! "ssl" = Some Demo.ssl_entry /\
  entry_rows Demo.entries_ssl
    = [entry_row Demo.ssl_entry; entry_row Demo.client_auth] /\
  In (Tprint [config_header;
              [CStr "ssl"; CStr "-"; CInt 5; CStr ""; CStr ""];
              [CStr "ssl.client.auth"; CStr "required"; CInt 4; CStr "Yes"; CStr ""]])
     (events_of (exec_cluster Demo.env_ssl (Some Demo.admin1) None) Demo.m_connected).
Proof.
  split; [reflexivity|]. split; [vm_compute; reflexivity|].
  split; [vm_compute; reflexivity|].
  vm_compute. auto 20.
Qed.

(** C2. The configuration requests follow the order of the broker dict,
    not the broker ids: for a snapshot that lists brokers 1, 3, 2, where
    broker 2 does not answer, the table of broker 3 comes before the
    diagnostic of broker 2. (The table before, in the same run, lists the
    brokers by ascending id.) *)
Theorem broker_configs_follow_dict_order :
  map fst (brokers Demo.meta132) = [1; 3; 2] /\
  fst (exec_cluster Demo.env_up (Some Demo.admin1) None Demo.m_connected) = Return tt /\
  drop 11 (events_of (exec_cluster Demo.env_up (Some Demo.admin1) None)
                     Demo.m_connected) =
    [Call (CallDescribeConfigs Demo.admin1 {| restype := BROKER; resname := "1" |});
     Tprint [config_header; entry_row Demo.client_auth];
     Call (CallDescribeConfigs Demo.admin1 {| restype := BROKER; resname := "3" |});
     Tprint [config_header; entry_row Demo.client_auth];
     Call (CallDescribeConfigs Demo.admin1 {| restype := BROKER; resname := "2" |});
     Print " (-) Could not describe broker 2"] /\
  requested_brokers (events_of (exec_cluster Demo.env_up (Some Demo.admin1) None)
                               Demo.m_connected) = ["1"; "3"; "2"].
Proof.
  split; [reflexivity|]. split; [vm_compute; reflexivity|].
  split; vm_compute; reflexivity.
Qed.


(** C7. [exec_connect] lets an exception through: with an empty list of
    bootstrap addresses, [random.choice] raises [IndexError] before either
    construction is tried, and the call ends with that exception. *)
Theorem exec_connect_raises_on_empty_list :
  State.config (sess Demo.m_empty_list) !! "bootstrap.servers" = Some (JList []) /\
  exec_connect Demo.env_up Demo.m_empty_list =
    (Raise (PyException "IndexError" "Cannot choose from an empty sequence"),
     Demo.m_empty_list).
Proof.
  split; vm_compute; reflexivity.
Qed.

(** ** The further properties at concrete inputs *)

Lemma tprint_lines_aligned_witness :
  tprint_lines Samples.str_cell (layout Samples.config_table)
    = Return ["   Key                Value       ";
              "   ---                -----       ";
              "   bootstrap.servers  kafka-1:9092";
              "    ...               kafka-2:9092";
              "   group.id           recon       "] /\
  exists n, Forall (fun line => String.length line = n)
                   ["   Key                Value       ";
                    "   ---                -----       ";
                    "   bootstrap.servers  kafka-1:9092";
                    "    ...               kafka-2:9092";
                    "   group.id           recon       "].
Proof.
  assert (H : tprint_lines Samples.str_cell (layout Samples.config_table)
              = Return ["   Key                Value       ";
                        "   ---                -----       ";
                        "   bootstrap.servers  kafka-1:9092";
                        "    ...               kafka-2:9092";
                        "   group.id           recon       "])
    by (vm_compute; reflexivity).
  split; [exact H|].
  exact (tprint_lines_aligned Samples.str_cell _ _ H).
Defined.

Lemma tprint_lines_count_witness :
  layout Samples.config_table <> [] /\
  (0 < 2)%nat /\
  Forall (fun row => length row = 2%nat) (layout Samples.config_table) /\
  list_sum (map (height Samples.str_cell) (layout Samples.config_table)) = 4%nat /\
  exists lines, tprint_lines Samples.str_cell (layout Samples.config_table) = Return lines /\
                length lines = 5%nat.
Proof.
  assert (Hne : layout Samples.config_table <> []) by discriminate.
  assert (Hk : Forall (fun row => length row = 2%nat) (layout Samples.config_table))
    by (repeat constructor).
  split; [exact Hne|]. split; [lia|]. split; [exact Hk|]. split; [reflexivity|].
  destruct (tprint_lines_count Samples.str_cell (layout Samples.config_table) 2
              Hne ltac:(lia) Hk) as [_ Hlines].
  apply Hlines. discriminate.
Defined.

Lemma tprint_lines_raises_witness :
  In [] (layout [[CStr "Key"; CStr "Value"]; []]) /\
  (exists msg, tprint_lines Samples.str_cell (layout [[CStr "Key"; CStr "Value"]; []])
                 = Raise (PyException "ValueError" msg)) /\
  tprint_lines Samples.str_cell (layout Samples.ragged_table)
    = Raise (PyException "IndexError" "list index out of range").
Proof.
  destruct (tprint_lines_raises Samples.str_cell) as (_ & Hempty & Hragged).
  assert (Hin : In [] (layout [[CStr "Key"; CStr "Value"]; []]))
    by (simpl; auto).
  split; [exact Hin|]. split; [exact (Hempty _ Hin)|].
  apply (Hragged (map layout_cell [CStr "Key"; CStr "Value"])
                 [map layout_cell [CStr "group.id"]]).
  - repeat constructor; discriminate.
  - vm_compute. lia.
  - constructor. split; vm_compute; lia.
Defined.

Lemma exec_load_only_adds_witness :
  State.config (sess Demo.m_fresh) = ∅ /\
  State.admin (sess (snd (exec_load Demo.env_up "first.json" Demo.m_fresh))) = None /\
  State.consumer (sess (snd (exec_load Demo.env_up "first.json" Demo.m_fresh))) = None /\
  State.broker (sess (snd (exec_load Demo.env_up "first.json" Demo.m_fresh)))
    = JStr "not connected" /\
  is_Some (State.config (sess Samples.m_ready) !! "group.id") /\
  is_Some (State.config (sess (snd (exec_load Demo.env_up "second.json" Samples.m_ready)))
             !! "group.id").
Proof.
  assert (Hk : is_Some (State.config (sess Samples.m_ready) !! "group.id"))
    by (vm_compute; eauto).
  destruct (exec_load_only_adds Demo.env_up "first.json" Demo.m_fresh)
    as (_ & Ha & Hc & Hb).
  destruct (exec_load_only_adds Demo.env_up "second.json" Samples.m_ready)
    as (Hs & _).
  split; [reflexivity|]. split; [exact Ha|]. split; [exact Hc|]. split; [exact Hb|].
  split; [exact Hk|exact (Hs "group.id" Hk)].
Defined.

Lemma exec_load_twice_witness :
  fst (json_load Demo.env_up "second.json" (world Samples.m_ready))
    = Return (JDict {[ "security.protocol" := JStr "PLAINTEXT" ]}) /\
  State.config
    (sess (snd (exec_load Demo.env_up "second.json"
                  (snd (exec_load Demo.env_up "second.json" Samples.m_ready)))))
    = State.config (sess (snd (exec_load Demo.env_up "second.json" Samples.m_ready))).
Proof.
  split; [reflexivity|].
  exact (exec_load_twice Demo.env_up "second.json" Samples.m_ready _ eq_refl eq_refl).
Defined.

Lemma exec_load_reports_document_witness :
  fst (json_load Demo.env_up "first.json" (world Demo.m_fresh))
    = Return (JDict Samples.first_document) /\
  Samples.first_items ≡ₚ map_to_list Samples.first_document /\
  events_of (exec_load Demo.env_up "first.json") Demo.m_fresh =
    [Call (CallJsonLoad "first.json");
     Print " (+) Loaded configuration from file:";
     Print "";
     TprintItems [CStr "Key"; CStr "Value"] Samples.first_document] /\
  exists lines,
    tprint_lines Samples.str_cell
      (layout ([CStr "Key"; CStr "Value"] :: item_rows Samples.first_items))
      = Return lines /\
    (2 + size Samples.first_document <= length lines)%nat.
Proof.
  assert (Hd : fst (json_load Demo.env_up "first.json" (world Demo.m_fresh))
               = Return (JDict Samples.first_document)) by reflexivity.
  assert (Hp : Samples.first_items ≡ₚ map_to_list Samples.first_document).
  { vm_compute. first [reflexivity | apply Permutation_swap]. }
  destruct (exec_load_reports_document Demo.env_up "first.json" Demo.m_fresh _ Hd)
    as (He & _ & Hl).
  split; [exact Hd|]. split; [exact Hp|]. split; [exact He|].
  exact (Hl Samples.str_cell Samples.first_items Hp).
Defined.

Lemma resolve_bootstrap_candidate_witness :
  [JStr "kafka-1:9092"; JStr "kafka-2:9092"] <> [] /\
  exists b,
    fst (resolve_bootstrap Demo.env_up (JList [JStr "kafka-1:9092"; JStr "kafka-2:9092"])
           Samples.m_two_servers) = Return b /\
    In b [JStr "kafka-1:9092"; JStr "kafka-2:9092"].
Proof.
  assert (Hne : [JStr "kafka-1:9092"; JStr "kafka-2:9092"] <> []) by discriminate.
  split; [exact Hne|].
  destruct (resolve_bootstrap_candidate Demo.env_up
              (JList [JStr "kafka-1:9092"; JStr "kafka-2:9092"]) Samples.m_two_servers)
    as [Hlist _].
  destruct (Hlist _ eq_refl Hne) as (b & Hb & Hin & _).
  exists b. split; [exact Hb|exact Hin].
Defined.

Lemma admin_client_gets_security_settings_only_witness :
  In (Call (CallAdminClient
              (admin_conf Samples.config_two_servers (JStr "kafka-1:9092"))))
     (events_of (exec_connect Demo.env_up) Samples.m_two_servers) /\
  State.config (sess Samples.m_two_servers) !! "bootstrap.servers"
    = Some (JList [JStr "kafka-1:9092"; JStr "kafka-2:9092"]) /\
  candidate (JList [JStr "kafka-1:9092"; JStr "kafka-2:9092"]) (JStr "kafka-1:9092") /\
  admin_conf Samples.config_two_servers (JStr "kafka-1:9092") !! "bootstrap.servers"
    = Some (JStr "kafka-1:9092") /\
  admin_conf Samples.config_two_servers (JStr "kafka-1:9092") !! "group.id" = None /\
  admin_conf Samples.config_two_servers (JStr "kafka-1:9092") !! "ssl.ca.location"
    = State.config (sess (snd (exec_connect Demo.env_up Samples.m_two_servers)))
        !! "ssl.ca.location".
Proof.
  assert (Hin : In (Call (CallAdminClient
                            (admin_conf Samples.config_two_servers (JStr "kafka-1:9092"))))
                   (events_of (exec_connect Demo.env_up) Samples.m_two_servers)).
  { vm_compute. auto. }
  split; [exact Hin|].
  destruct (admin_client_gets_security_settings_only Demo.env_up Samples.m_two_servers
              _ Hin) as ((v & b & Hv & _ & Hcand & Hb) & Hg & _ & Hk).
  assert (Ev : v = JList [JStr "kafka-1:9092"; JStr "kafka-2:9092"]).
  { vm_compute in Hv. congruence. }
  assert (Eb : b = JStr "kafka-1:9092").
  { vm_compute in Hb. congruence. }
  subst v b.
  split; [exact Hv|]. split; [exact Hcand|]. split; [exact Hb|].
  split; [exact Hg|]. apply Hk. simpl. auto.
Defined.

Lemma consumer_gets_whole_configuration_witness :
  In (Call (CallConsumer
              (consumer_conf Samples.config_two_servers (JStr "kafka-1:9092"))))
     (events_of (exec_connect Demo.env_up) Samples.m_two_servers) /\
  Samples.config_two_servers !! "enable.partition.eof" = Some (JBool false) /\
  consumer_conf Samples.config_two_servers (JStr "kafka-1:9092") !! "enable.partition.eof"
    = Some (JBool true).
Proof.
  assert (Hin : In (Call (CallConsumer
                            (consumer_conf Samples.config_two_servers (JStr "kafka-1:9092"))))
                   (events_of (exec_connect Demo.env_up) Samples.m_two_servers)).
  { vm_compute. auto 10. }
  split; [exact Hin|]. split; [vm_compute; reflexivity|].
  exact (proj1 (consumer_gets_whole_configuration Demo.env_up Samples.m_two_servers
                  _ Hin)).
Defined.

Lemma exec_connect_both_clients_witness :
  State.config (sess (snd (default_group_id Demo.env_up Samples.m_ready)))
    !! "bootstrap.servers" = Some (JStr "localhost:9092") /\
  resolve_bootstrap Demo.env_up (JStr "localhost:9092")
    (snd (default_group_id Demo.env_up Samples.m_ready))
    = (Return (JStr "localhost:9092"), Samples.m_ready) /\
  State.admin (sess (snd (exec_connect Demo.env_up Samples.m_ready)))
    = Some (AdminClientObj 1) /\
  State.consumer (sess (snd (exec_connect Demo.env_up Samples.m_ready)))
    = Some (ConsumerObj 2) /\
  State.broker (sess (snd (exec_connect Demo.env_up Samples.m_ready)))
    = JStr "localhost:9092".
Proof.
  assert (Hv : State.config (sess (snd (default_group_id Demo.env_up Samples.m_ready)))
               !! "bootstrap.servers" = Some (JStr "localhost:9092"))
    by (vm_compute; reflexivity).
  assert (Hr : resolve_bootstrap Demo.env_up (JStr "localhost:9092")
                 (snd (default_group_id Demo.env_up Samples.m_ready))
               = (Return (JStr "localhost:9092"), Samples.m_ready))
    by (vm_compute; reflexivity).
  split; [exact Hv|]. split; [exact Hr|].
  rewrite (exec_connect_both_clients Demo.env_up Samples.m_ready Samples.m_ready
             (JStr "localhost:9092") (JStr "localhost:9092")
             (AdminClientObj 1) 0%nat (ConsumerObj 2) 0%nat Hv Hr eq_refl eq_refl).
  simpl. auto.
Defined.

Lemma exec_connect_admin_only_witness :
  State.config (sess (snd (default_group_id Samples.env_consumer_down Samples.m_ready)))
    !! "bootstrap.servers" = Some (JStr "localhost:9092") /\
  fst (exec_connect Samples.env_consumer_down Samples.m_ready) = Return tt /\
  State.admin (sess (snd (exec_connect Samples.env_consumer_down Samples.m_ready)))
    = Some (AdminClientObj 1) /\
  State.consumer (sess (snd (exec_connect Samples.env_consumer_down Samples.m_ready)))
    = None.
Proof.
  assert (Hv : State.config
                 (sess (snd (default_group_id Samples.env_consumer_down Samples.m_ready)))
               !! "bootstrap.servers" = Some (JStr "localhost:9092"))
    by (vm_compute; reflexivity).
  assert (Hr : resolve_bootstrap Samples.env_consumer_down (JStr "localhost:9092")
                 (snd (default_group_id Samples.env_consumer_down Samples.m_ready))
               = (Return (JStr "localhost:9092"), Samples.m_ready))
    by (vm_compute; reflexivity).
  split; [exact Hv|].
  destruct (exec_connect_admin_only Samples.env_consumer_down Samples.m_ready
              Samples.m_ready (JStr "localhost:9092") (JStr "localhost:9092")
              (AdminClientObj 1) 0%nat "Failed to create client" 0%nat
              Hv Hr eq_refl eq_refl) as (H1 & H2 & H3 & _).
  split; [exact H1|]. split; [exact H2|exact H3].
Defined.

Lemma exec_connect_failed_keeps_session_witness :
  State.config (sess (snd (default_group_id Demo.env_down Demo.m_connected)))
    !! "bootstrap.servers" = Some (JStr "localhost:9092") /\
  no_client_constructed Demo.env_down
    (State.config (sess (snd (default_group_id Demo.env_down Demo.m_connected))))
    (JStr "localhost:9092") 1%nat /\
  State.admin (sess (snd (exec_connect Demo.env_down Demo.m_connected)))
    = Some Demo.admin1 /\
  State.consumer (sess (snd (exec_connect Demo.env_down Demo.m_connected)))
    = Some (ConsumerObj 2).
Proof.
  assert (Hv : State.config (sess (snd (default_group_id Demo.env_down Demo.m_connected)))
               !! "bootstrap.servers" = Some (JStr "localhost:9092"))
    by (vm_compute; reflexivity).
  assert (Hn : no_client_constructed Demo.env_down
                 (State.config (sess (snd (default_group_id Demo.env_down Demo.m_connected))))
                 (JStr "localhost:9092") 1%nat).
  { exists "Failed to create client", 1%nat, "Failed to create client", 1%nat.
    split; reflexivity. }
  split; [exact Hv|]. split; [exact Hn|].
  destruct (exec_connect_failed_keeps_session Demo.env_down Demo.m_connected
              (snd (default_group_id Demo.env_down Demo.m_connected))
              (JStr "localhost:9092") (JStr "localhost:9092") Hv eq_refl Hn)
    as (_ & Ha & Hc & _).
  split; [exact Ha|exact Hc].
Defined.

Lemma exec_connect_admin_other_exception_witness :
  State.config (sess (snd (default_group_id Samples.env_type_error Samples.m_ready)))
    !! "bootstrap.servers" = Some (JStr "localhost:9092") /\
  exec_connect Samples.env_type_error Samples.m_ready =
    (Raise (PyException "TypeError" "expected configuration dict"),
     {| sess := sess Samples.m_ready; world := 0%nat;
        trace := [Call (CallAdminClient
                          (admin_conf Samples.config_ready (JStr "localhost:9092")))] |}).
Proof.
  assert (Hv : State.config
                 (sess (snd (default_group_id Samples.env_type_error Samples.m_ready)))
               !! "bootstrap.servers" = Some (JStr "localhost:9092"))
    by (vm_compute; reflexivity).
  split; [exact Hv|].
  exact (proj1 (exec_connect_admin_other_exception Samples.env_type_error Samples.m_ready
                  Samples.m_ready (JStr "localhost:9092") (JStr "localhost:9092")
                  "TypeError" "expected configuration dict" 0%nat Hv eq_refl eq_refl)).
Defined.

Lemma exec_disconnect_releases_witness :
  (forall a w, fst (admin_close Demo.env_up a w) = Return tt) /\
  (forall c w, fst (consumer_close Demo.env_up c w) = Return tt) /\
  events_of (exec_disconnect Demo.env_up (Some Demo.admin1) (Some (ConsumerObj 2)))
            Demo.m_connected =
    [Call (CallAdminClose Demo.admin1); Print " (+) Admin disconnected";
     Call (CallConsumerClose (ConsumerObj 2)); Print " (+) Consumer disconnected"].
Proof.
  assert (Ha : forall a w, fst (admin_close Demo.env_up a w) = Return tt)
    by reflexivity.
  assert (Hc : forall c w, fst (consumer_close Demo.env_up c w) = Return tt)
    by reflexivity.
  split; [exact Ha|]. split; [exact Hc|].
  exact (proj2 (exec_disconnect_releases Demo.env_up (Some Demo.admin1)
                  (Some (ConsumerObj 2)) Demo.m_connected Ha Hc)).
Defined.

Lemma exec_cluster_metadata_failure_witness :
  admin_list_topics Samples.env_no_metadata Demo.admin1 15 (world Demo.m_connected)
    = (Raise (KafkaException "timed out"), 0%nat) /\
  exec_cluster Samples.env_no_metadata (Some Demo.admin1) (Some (ConsumerObj 2))
    Demo.m_connected =
    (Return tt,
     {| sess := Demo.connected; world := 0%nat;
        trace := [Call (CallAdminListTopics Demo.admin1 15);
                  Print " (-) Could not query metadata: timed out";
                  Print ""] |}).
Proof.
  split; [reflexivity|].
  destruct (exec_cluster_metadata_failure Samples.env_no_metadata Demo.m_connected
              "timed out" 0%nat) as [Hadmin _].
  exact (Hadmin Demo.admin1 (Some (ConsumerObj 2)) eq_refl).
Defined.

Lemma broker_table_sorted_witness :
  In (Tprint Samples.broker_table) (events_of (report_brokers Demo.meta132) Demo.m_listed) /\
  exists bs,
    Samples.broker_table = [CStr "ID"; CStr "Host"; CStr "Port"] :: map broker_row bs /\
    Permutation bs [Demo.broker1; Demo.broker3; Demo.broker2] /\
    StronglySorted (fun a b => id a <= id b) bs.
Proof.
  assert (Hin : In (Tprint Samples.broker_table)
                   (events_of (report_brokers Demo.meta132) Demo.m_listed)).
  { vm_compute. auto. }
  split; [exact Hin|].
  exact (broker_table_sorted Demo.meta132 Demo.m_listed Samples.broker_table Hin).
Defined.

Lemma config_table_rows_witness :
  Demo.entries_ssl !! "ssl.client.auth" = Some Demo.client_auth /\
  exists kes : list (string * ConfigEntry),
    entry_rows Demo.entries_ssl = map (fun ke => entry_row (snd ke)) kes /\
    In ("ssl.client.auth", Demo.client_auth) kes.
Proof.
  assert (He : Demo.entries_ssl !! "ssl.client.auth" = Some Demo.client_auth)
    by (vm_compute; reflexivity).
  split; [exact He|].
  destruct (config_table_rows Demo.entries_ssl) as (kes & Hr & _ & _ & _ & Hauth).
  exists kes. split; [exact Hr|exact (Hauth _ He)].
Defined.

Lemma entry_row_cells_witness :
  exists nm vl ro se,
    entry_row Samples.long_entry = [CStr nm; CStr vl; CInt 4; CStr ro; CStr se] /\
    (String.length nm <= 40)%nat /\
    (String.length vl <= 20)%nat /\
    se = "Yes".
Proof.
  destruct (entry_row_cells Samples.long_entry)
    as (nm & vl & ro & se & Hrow & Hn & _ & _ & Hv & _ & _ & Hse & _).
  exists nm, vl, ro, se. split; [exact Hrow|]. split; [exact Hn|].
  split; [exact (proj1 Hv)|]. apply Hse. reflexivity.
Defined.

Lemma run_command_accumulates_witness :
  is_Some (State.admin (sess Demo.m_connected)) /\
  is_Some (State.admin (sess (snd (run_command Demo.env_up ["disconnect"]
                                     Demo.m_connected)))) /\
  is_Some (State.config (sess (snd (run_command Demo.env_up ["load"; "second.json"]
                                      Demo.m_connected))) !! "bootstrap.servers").
Proof.
  assert (Ha : is_Some (State.admin (sess Demo.m_connected))) by (simpl; eauto).
  assert (Hk : is_Some (State.config (sess Demo.m_connected) !! "bootstrap.servers"))
    by (vm_compute; eauto).
  split; [exact Ha|]. split.
  - destruct (run_command_accumulates Demo.env_up ["disconnect"] Demo.m_connected)
      as (_ & Hadm & _).
    exact (Hadm Ha).
  - destruct (run_command_accumulates Demo.env_up ["load"; "second.json"]
                Demo.m_connected) as (Hcfg & _).
    exact (Hcfg _ Hk).
Defined.

Lemma run_command_ends_on_exit_witness :
  head ["exit"; "now"] = Some "exit" /\
  fst (run_command Demo.env_up ["exit"; "now"] Demo.m_connected) = Return false /\
  run_command Demo.env_up ["exit"; "now"] Demo.m_connected =
    (Return false, {| sess := Demo.connected; world := 0%nat; trace := [Print ""] |}).
Proof.
  split; [reflexivity|].
  destruct (run_command_ends_on_exit Demo.env_up ["exit"; "now"] Demo.m_connected)
    as [Hiff Hrun].
  split; [exact (proj2 Hiff eq_refl)|].
  exact (Hrun eq_refl).
Defined.

Lemma run_command_turned_down_witness :
  State.config (sess Demo.m_fresh) = ∅ /\
  length ["a.json"; "b.json"] <> 1%nat /\
  run_command Demo.env_up ["connect"] Demo.m_fresh =
    (Return true,
     {| sess := State.init; world := 0%nat;
        trace := [Print ""; Print " (-) Configuration required"] |}) /\
  run_command Demo.env_up ["load"; "a.json"; "b.json"] Demo.m_fresh =
    (Return true,
     {| sess := State.init; world := 0%nat;
        trace := [Print ""; Print " (-) usage: load <file>"] |}).
Proof.
  assert (He : State.config (sess Demo.m_fresh) = ∅) by reflexivity.
  assert (Hl : length ["a.json"; "b.json"] <> 1%nat) by discriminate.
  split; [exact He|]. split; [exact Hl|]. split.
  - exact (proj1 (run_command_turned_down Demo.env_up [] Demo.m_fresh) He).
  - exact (proj2 (run_command_turned_down Demo.env_up ["a.json"; "b.json"] Demo.m_fresh)
             Hl).
Defined.

Lemma run_command_not_found_witness :
  ~ In "topics" ["exit"; "help"; "?"; "config"; "load"; "connect"; "disconnect"; "cluster"] /\
  run_command Demo.env_up ["topics"] Demo.m_connected =
    (Return true,
     {| sess := Demo.connected; world := 0%nat;
        trace := [Print ""; Print " (-) Command not found: topics"] |}).
Proof.
  assert (Hn : ~ In "topics" ["exit"; "help"; "?"; "config"; "load"; "connect";
                               "disconnect"; "cluster"]).
  { simpl. intuition discriminate. }
  split; [exact Hn|].
  exact (run_command_not_found Demo.env_up "topics" [] Demo.m_connected Hn).
Defined.

Lemma demo_library_raises_Kafka_only : library_raises_Kafka_only Demo.env_up.
Proof.
  repeat split; intros; simpl; try done.
  by destruct (String.eqb (resname res) "2").
Qed.

Lemma exec_cluster_returns_witness :
  library_raises_Kafka_only Demo.env_up /\
  fst (exec_cluster Demo.env_up (Some Demo.admin1) (Some (ConsumerObj 2)) Demo.m_connected)
    = Return tt.
Proof.
  split; [exact demo_library_raises_Kafka_only|].
  exact (exec_cluster_returns Demo.env_up (Some Demo.admin1) (Some (ConsumerObj 2))
           Demo.m_connected demo_library_raises_Kafka_only).
Defined.

Lemma exec_connect_returns_witness :
  library_raises_Kafka_only Demo.env_up /\
  State.config (sess Samples.m_two_servers) !! "bootstrap.servers" <> Some (JList []) /\
  fst (exec_connect Demo.env_up Samples.m_two_servers) = Return tt.
Proof.
  assert (Hb : State.config (sess Samples.m_two_servers) !! "bootstrap.servers"
               <> Some (JList [])).
  { vm_compute. discriminate. }
  split; [exact demo_library_raises_Kafka_only|]. split; [exact Hb|].
  exact (exec_connect_returns Demo.env_up Samples.m_two_servers
           demo_library_raises_Kafka_only Hb).
Defined.
